(** * europython_bot: the checkpoint scan and sail throttle of [Bot.run]

    A shallow embedding of [src/europython_bot/bot.py].  Python floats and
    numpy float64 scalars are IEEE 754 binary64 values: they are modelled by
    Rocq's primitive floats, whose operations are specified by
    [Stdlib.Floats.FloatAxioms] against [SpecFloat].  In [run] the divisor
    [jump] is the product of [dt] and the result of [numpy.linalg.norm], a
    numpy float64, so [ch.radius / jump] is numpy's division: on a zero
    divisor it returns an infinity or a NaN (and emits a warning), it does not
    raise [ZeroDivisionError].  The primitive division is that total
    operation.  The mutable course of the bot is threaded explicitly: [run]
    returns the instructions together with the bot after the call. *)

From Stdlib Require Import String Floats List Bool ZArith Lia.
Import ListNotations.

Set Warnings "-inexact-float".

Open Scope float_scope.

(** ** The vendeeglobe data classes used by the bot *)

(** Modelled from the spec: [vendeeglobe.Location] is imported by bot.py, its
    declaration is not part of the repository; the bot builds it from a
    longitude and a latitude, both in degrees. *)
Module Location.
Record t : Set := mk { longitude : float; latitude : float }.
End Location.

(** Modelled from the spec: [vendeeglobe.Heading] and [vendeeglobe.Vector] are
    imported and never built by the bot. *)
Module Heading.
Record t : Set := mk { angle : float }.
End Heading.

Module Vector.
Record t : Set := mk { u : float; v : float }.
End Vector.

(** Modelled from the spec: [vendeeglobe.Checkpoint] is imported by bot.py; it
    is built from a latitude, a longitude and a radius, and carries the
    mutable flag [reached], initially false. *)
Module Checkpoint.
Record t : Set :=
  mk { latitude : float; longitude : float; radius : float; reached : bool }.

(** [Checkpoint(latitude=.., longitude=.., radius=..)] *)
Definition new (latitude longitude radius : float) : t :=
  mk latitude longitude radius false.

(** [ch.reached = b] *)
Definition set_reached (ch : t) (b : bool) : t :=
  mk (latitude ch) (longitude ch) (radius ch) b.
End Checkpoint.

(** Modelled from the spec: [vendeeglobe.Instructions] is imported by bot.py;
    the docstring of [run] lists its forms (a location, a heading, a vector,
    degrees to turn left or right) and the optional sail.  A field that was
    never assigned is [None]. *)
Module Instructions.
Record t : Set :=
  mk { location : option Location.t;
       heading : option Heading.t;
       vector : option Vector.t;
       left : option float;
       right : option float;
       sail : option float }.

(** [Instructions()] *)
Definition new : t := mk None None None None None None.

(** [instructions.sail = s] *)
Definition set_sail (i : t) (s : float) : t :=
  mk (location i) (heading i) (vector i) (left i) (right i) (Some s).

(** [instructions.location = l] *)
Definition set_location (i : t) (l : Location.t) : t :=
  mk (Some l) (heading i) (vector i) (left i) (right i) (sail i).
End Instructions.

(** Python's builtin [min(a, b)]: the first argument is kept unless the second
    compares strictly below it (so a NaN first argument is returned). *)
Definition py_min (a b : float) : float := if b <? a then b else a.

(** ** The bot *)

Module Bot.

Record t : Set := { team : string; course : list Checkpoint.t }.

(** [Bot.__init__]; [config_start] is [vendeeglobe.config.start], a constant of
  the imported package. *)
Definition init (config_start : Location.t) : t :=
{| team := "TeamName";
   course :=
     [ Checkpoint.new 19.642470 (-67.647903) 50.0;
       Checkpoint.new 17.547803 (-67.684136) 50.0;
       Checkpoint.new 9.790025 (-80.239573) 25.0;
       Checkpoint.new 8.211505 (-79.257962) 5.0;
       Checkpoint.new 4.588588 (-79.103848) 5.0;
       Checkpoint.new 2.806318 (-168.943864) 1990.0;
       Checkpoint.new (-45.323803) 146.583239 50.0;
       Checkpoint.new (-15.668984) 77.674694 1190.0;
       Checkpoint.new 16.052669 57.139665 5.0;
       Checkpoint.new 12.019005 43.842936 5.0;
       Checkpoint.new 13.261215 42.965917 5.0;
       Checkpoint.new 27.274732 34.780896 5.0;
       Checkpoint.new 27.446995 34.032762 5.0;
       Checkpoint.new 30.052491 32.247897 50.0;
       Checkpoint.new 31.649919 32.340517 5.0;
       Checkpoint.new 32.718687 31.067931 5.0;
       Checkpoint.new 35.563709 13.286058 5.0;
       Checkpoint.new 38.431296 10.546054 5.0;
       Checkpoint.new 37.193482 0.674736 5.0;
       Checkpoint.new 36.011121 (-2.553028) 5.0;
       Checkpoint.new 35.995605 (-4.816351) 5.0;
       Checkpoint.new 35.918048 (-7.032032) 5.0;
       Checkpoint.new 35.549149 (-11.086910) 5.0;
       Checkpoint.new 44.112596 (-10.353684) 5.0;
       Checkpoint.new (Location.latitude config_start)
                      (Location.longitude config_start) 5 ] |}.

Section Run.

(** [vendeeglobe.utils.distance_on_surface(longitude1, latitude1,
    longitude2, latitude2)] and [numpy.linalg.norm] are functions of imported
    packages: they are parameters of the development. *)
Variable distance_on_surface : float -> float -> float -> float -> float.
Variable linalg_norm : float -> float.

Section Tick.

(** The arguments of [run] that the scan reads. *)
Variables dt longitude latitude speed : float.

(** One iteration of [for ch in self.course]: the instructions and the
    checkpoint after the iteration, and whether the loop was left by
    [break]. *)
Definition visit (instructions : Instructions.t) (ch : Checkpoint.t)
  : Instructions.t * Checkpoint.t * bool :=
  let dist :=
    distance_on_surface longitude latitude
      (Checkpoint.longitude ch) (Checkpoint.latitude ch) in
  let jump := dt * linalg_norm speed in
  let instructions :=
    if dist <? 2.0 * Checkpoint.radius ch + jump
    then Instructions.set_sail instructions
           (py_min (Checkpoint.radius ch / jump) 1)
    else Instructions.set_sail instructions 1.0 in
  let ch :=
    if dist <? Checkpoint.radius ch
    then Checkpoint.set_reached ch true else ch in
  if negb (Checkpoint.reached ch)
  then (Instructions.set_location instructions
          (Location.mk (Checkpoint.longitude ch) (Checkpoint.latitude ch)),
        ch, true)
  else (instructions, ch, false).

(** The loop [for ch in self.course: ...; break]. *)
Fixpoint for_course (instructions : Instructions.t)
  (course : list Checkpoint.t) : Instructions.t * list Checkpoint.t :=
  match course with
  | [] => (instructions, [])
  | ch :: rest =>
      let '(instructions, ch, stop) := visit instructions ch in
      if stop then (instructions, ch :: rest)
      else
        let '(instructions, rest) := for_course instructions rest in
        (instructions, ch :: rest)
  end.

(** *** The quantities the loop body computes for a checkpoint *)

(** [dist]: the distance from the current position to [ch]. *)
Definition dist (ch : Checkpoint.t) : float :=
  distance_on_surface longitude latitude
    (Checkpoint.longitude ch) (Checkpoint.latitude ch).

(** [jump]: the distance covered in one time step at the current speed. *)
Definition jump : float := dt * linalg_norm speed.

(** The value assigned to [instructions.sail] when [ch] is examined. *)
Definition throttle (ch : Checkpoint.t) : float :=
  if dist ch <? 2.0 * Checkpoint.radius ch + jump
  then py_min (Checkpoint.radius ch / jump) 1
  else 1.0.

(** The test [dist < ch.radius]. *)
Definition within (ch : Checkpoint.t) : bool :=
  dist ch <? Checkpoint.radius ch.

(** [ch] after the statement [if dist < ch.radius: ch.reached = True]. *)
Definition mark (ch : Checkpoint.t) : Checkpoint.t :=
  if within ch then Checkpoint.set_reached ch true else ch.

(** [ch.reached] as read by [if not ch.reached], after the check. *)
Definition passed (ch : Checkpoint.t) : bool :=
  Checkpoint.reached ch || within ch.

(** The location the bot steers to when it stops at [ch]. *)
Definition target (ch : Checkpoint.t) : Location.t :=
  Location.mk (Checkpoint.longitude ch) (Checkpoint.latitude ch).

(** The checkpoints the loop examines: the course up to and including
    the first checkpoint that is not reached after its check. *)
Fixpoint scanned (course : list Checkpoint.t) : list Checkpoint.t :=
  match course with
  | [] => []
  | ch :: rest => ch :: (if passed ch then scanned rest else [])
  end.

(** The checkpoint of index [k] is examined when no earlier checkpoint
    stopped the loop. *)
Definition examined (course : list Checkpoint.t) (k : nat) : bool :=
  forallb passed (firstn k course).

End Tick.

(** [Bot.run].  The two queries at the top of the body are made and their
    results bound to locals that nothing reads. *)
Definition run {Forecast Terrain : Type} (self : Bot.t)
  (t dt longitude latitude heading speed : float) (vector : list float)
  (forecast : float -> float -> Z -> Forecast)
  (world_map : float -> float -> Terrain) : Instructions.t * Bot.t :=
  let instructions := Instructions.new in
  let current_position_forecast := forecast latitude longitude 0%Z in
  let current_position_terrain := world_map latitude longitude in
  let '(instructions, course) :=
    for_course dt longitude latitude speed instructions (course self) in
  (instructions, {| team := team self; course := course |}).

End Run.

End Bot.

(** ** Sequences of calls *)

(** The arguments of one call of [run]. *)
Record Call (Forecast Terrain : Type) : Type :=
  { call_t : float;
    call_dt : float;
    call_longitude : float;
    call_latitude : float;
    call_heading : float;
    call_speed : float;
    call_vector : list float;
    call_forecast : float -> float -> Z -> Forecast;
    call_world_map : float -> float -> Terrain }.

Arguments call_t {Forecast Terrain} _.
Arguments call_dt {Forecast Terrain} _.
Arguments call_longitude {Forecast Terrain} _.
Arguments call_latitude {Forecast Terrain} _.
Arguments call_heading {Forecast Terrain} _.
Arguments call_speed {Forecast Terrain} _.
Arguments call_vector {Forecast Terrain} _.
Arguments call_forecast {Forecast Terrain} _.
Arguments call_world_map {Forecast Terrain} _.

Section Calls.

Variable distance_on_surface : float -> float -> float -> float -> float.
Variable linalg_norm : float -> float.
Context {Forecast Terrain : Type}.

Definition run_call (self : Bot.t) (c : Call Forecast Terrain)
  : Instructions.t * Bot.t :=
  Bot.run distance_on_surface linalg_norm self
    (call_t c) (call_dt c) (call_longitude c) (call_latitude c)
    (call_heading c) (call_speed c) (call_vector c)
    (call_forecast c) (call_world_map c).

(** The bot after the harness has called [run] once per element of
    [calls], in order. *)
Fixpoint run_calls (self : Bot.t) (calls : list (Call Forecast Terrain))
  : Bot.t :=
  match calls with
  | [] => self
  | c :: calls => run_calls (snd (run_call self c)) calls
  end.

End Calls.

(** ** Auxiliary notions for the statements *)

(** The last element of a list, if any. *)
Fixpoint last_error {A : Type} (l : list A) : option A :=
  match l with
  | [] => None
  | [x] => Some x
  | _ :: l' => last_error l'
  end.

(** The part of a checkpoint that is fixed when it is built. *)
Definition geometry (ch : Checkpoint.t) : float * float * float :=
  (Checkpoint.latitude ch, Checkpoint.longitude ch, Checkpoint.radius ch).

(** The flag of the checkpoint of index [k], if the course has one. *)
Definition reached_at (self : Bot.t) (k : nat) : option bool :=
  option_map Checkpoint.reached (nth_error (Bot.course self) k).

(** A sail value that lies in the closed interval from 0 to 1. *)
Definition unit_sail (s : float) : bool := (0 <=? s) && (s <=? 1).

(** ** Classes of specification floats *)

(** A specification float that is not a NaN and whose sign is [s]. *)
Definition signed (s : bool) (x : spec_float) : Prop :=
  match x with
  | S754_nan => False
  | S754_zero s' | S754_infinity s' | S754_finite s' _ _ => s' = s
  end.

(** A specification float that is above zero. *)
Definition positive_sf (x : spec_float) : Prop :=
  match x with
  | S754_finite false _ _ | S754_infinity false => True
  | _ => False
  end.

(** A specification float that no float is below unless that float is below zero. *)
Definition not_positive_sf (x : spec_float) : Prop :=
  match x with
  | S754_nan | S754_zero _ => True
  | S754_infinity s | S754_finite s _ _ => s = true
  end.

(** A specification float that is a zero or above zero. *)
Definition nonneg_sf (x : spec_float) : Prop :=
  match x with
  | S754_zero _ => True
  | S754_nan => False
  | S754_infinity s | S754_finite s _ _ => s = false
  end.

(** ** A planar world on which the scan can be evaluated

    The imported functions are parameters of the development; to run the bot
    on concrete inputs they are instantiated here by a flat map with 111 km
    per degree and by the norm of a scalar. *)

Definition flat_distance (longitude1 latitude1 longitude2 latitude2 : float)
  : float :=
  let dx := longitude2 - longitude1 in
  let dy := latitude2 - latitude1 in
  111.0 * sqrt (dx * dx + dy * dy).

(** [numpy.linalg.norm] on a scalar: the square root of the dot product of
    the one-element array with itself. *)
Definition scalar_norm (x : float) : float := sqrt (x * x).

Definition no_forecast (latitudes longitudes : float) (times : Z) : unit := tt.

Definition stormy_forecast (latitudes longitudes : float) (times : Z) : float :=
  latitudes + longitudes.

Definition all_sea (latitudes longitudes : float) : Z := 1%Z.

Definition all_land (latitudes longitudes : float) : bool := false.

(** The start of the race, Les Sables-d'Olonne. *)
Definition sables_d_olonne : Location.t := Location.mk (-1.81) 46.494.

(** [run] on the planar world, with the queries answered by [no_forecast] and
    [all_sea]. *)
Definition flat_run (self : Bot.t) (dt longitude latitude speed : float)
  : Instructions.t * Bot.t :=
  Bot.run flat_distance scalar_norm self 0 dt longitude latitude 0 speed [] no_forecast all_sea.

(** ** Concrete bots and positions *)

(** The bot as [__init__] leaves it, and the first two checkpoints of its
    course. *)
Definition bot_at_start : Bot.t := Bot.init sables_d_olonne.

Definition first_checkpoint : Checkpoint.t :=
  Checkpoint.new 19.642470 (-67.647903) 50.0.

Definition second_checkpoint : Checkpoint.t :=
  Checkpoint.new 17.547803 (-67.684136) 50.0.

(** A course whose second and third checkpoints are 11.1 km apart with radii
    of 50 km; its first checkpoint was reached in an earlier call. *)
Definition overlapping_bot : Bot.t :=
  {| Bot.team := "TeamName";
     Bot.course :=
       [ Checkpoint.mk 0 0 50 true;
         Checkpoint.new 0 1 50;
         Checkpoint.new 0 1.1 50;
         Checkpoint.new 0 10 50 ] |}.

(** A course of two checkpoints, the first one reached in an earlier call. *)
Definition closing_bot : Bot.t :=
  {| Bot.team := "TeamName";
     Bot.course := [ Checkpoint.mk 0 0 50 true; Checkpoint.new 0 1 50 ] |}.

(** Two calls of the harness, on the planar world. *)
Definition call_at_first : Call unit Z :=
  {| call_t := 0; call_dt := 1;
     call_longitude := -67.647903; call_latitude := 19.642470;
     call_heading := 0; call_speed := 100; call_vector := [];
     call_forecast := no_forecast; call_world_map := all_sea |}.

Definition call_north_of_first : Call unit Z :=
  {| call_t := 1; call_dt := 1;
     call_longitude := -67.647903; call_latitude := 20.242470;
     call_heading := 0; call_speed := 100; call_vector := [];
     call_forecast := no_forecast; call_world_map := all_sea |}.

Definition call_at_second : Call unit Z :=
  {| call_t := 2; call_dt := 1;
     call_longitude := -67.684136; call_latitude := 17.547803;
     call_heading := 0; call_speed := 100; call_vector := [];
     call_forecast := no_forecast; call_world_map := all_sea |}.

(** ** The order of the flags *)

(** The flags of a course are in order when no checkpoint is reached behind
    one that is not: a run of reached checkpoints, then unreached ones. *)
Fixpoint in_order (course : list Checkpoint.t) : bool :=
  match course with
  | [] => true
  | ch :: rest =>
      if Checkpoint.reached ch then in_order rest
      else forallb (fun c => negb (Checkpoint.reached c)) rest
  end.

(** * Properties *)

Lemma last_error_nonempty {A : Type} (x : A) (l : list A) :
  exists y, last_error (x :: l) = Some y.
Proof.
  revert x. induction l as [|z l IH]; intros x; [now exists x|].
  destruct (IH z) as [y Hy]. exists y. exact Hy.
Qed.

Lemma last_error_cons {A : Type} (x : A) (l : list A) :
  last_error (x :: l) =
    match last_error l with
    | Some y => Some y
    | None => Some x
    end.
Proof.
  destruct l as [|z l]; [reflexivity|].
  destruct (last_error_nonempty z l) as [y Hy].
  change (last_error (x :: z :: l)) with (last_error (z :: l)).
  now rewrite Hy.
Qed.

Lemma forallb_firstn_nth {A : Type} (p : A -> bool) (l : list A) :
  forall k,
    (forall j a, (j < k)%nat -> nth_error l j = Some a -> p a = true) ->
    forallb p (firstn k l) = true.
Proof.
  induction l as [|x l IH]; intros k H; [now destruct k|].
  destruct k as [|k]; [reflexivity|]. cbn [firstn forallb].
  rewrite (H 0%nat x) by (cbn; (lia || reflexivity)). cbn [andb].
  apply IH. intros j a Hj Ha. apply (H (S j) a); [lia | exact Ha].
Qed.

Lemma find_first_failing {A : Type} (p : A -> bool) (l : list A) :
  forall k x,
    nth_error l k = Some x ->
    forallb p (firstn k l) = true ->
    p x = false ->
    find (fun a => negb (p a)) l = Some x.
Proof.
  induction l as [|y l IH]; intros k x Hn Hall Hx; [now destruct k|].
  destruct k as [|k]; cbn [nth_error firstn forallb find] in *.
  - injection Hn as ->. now rewrite Hx.
  - apply andb_true_iff in Hall as [Hy Hall]. rewrite Hy. cbn [negb].
    now apply (IH k).
Qed.

Lemma last_error_In {A : Type} (l : list A) (x : A) :
  last_error l = Some x -> In x l.
Proof.
  induction l as [|y l IH]; [discriminate|].
  rewrite last_error_cons. destruct (last_error l) as [z|].
  - intros H. injection H as ->. right. now apply IH.
  - intros H. injection H as ->. now left.
Qed.

(** ** Binary64 arithmetic: signs of products and quotients, comparisons *)

Lemma iter_pos_invariant {A : Type} (P : A -> Prop) (f : A -> A) :
  (forall x, P x -> P (f x)) -> forall n x, P x -> P (SpecFloat.iter_pos f n x).
Proof.
  intros Hf. induction n as [n IH|n IH|]; intros x Hx; cbn [SpecFloat.iter_pos]; auto.
Qed.

Lemma shr_1_nonneg mrs : (0 <= shr_m mrs)%Z -> (0 <= shr_m (shr_1 mrs))%Z.
Proof.
  destruct mrs as [m r s]. cbn [shr_m]. intros H.
  destruct m as [|[p|p|]|p]; cbn; lia.
Qed.

Lemma shr_nonneg mrs e n :
  (0 <= shr_m mrs)%Z -> (0 <= shr_m (fst (shr mrs e n)))%Z.
Proof.
  intros H. destruct n as [|p|p]; cbn [shr fst]; trivial.
  apply (iter_pos_invariant (fun x => (0 <= shr_m x)%Z)); [exact shr_1_nonneg | exact H].
Qed.

Lemma shr_fexp_nonneg p em m e l :
  (0 <= m)%Z -> (0 <= shr_m (fst (shr_fexp p em m e l)))%Z.
Proof.
  intros H. unfold shr_fexp. apply shr_nonneg.
  destruct l as [|[]]; exact H.
Qed.

Lemma round_nearest_even_nonneg m l :
  (0 <= m)%Z -> (0 <= round_nearest_even m l)%Z.
Proof.
  intros H. destruct l as [|[]]; cbn [round_nearest_even]; try lia.
  destruct (Z.even m); lia.
Qed.

Lemma binary_round_aux_signed p em s m e l :
  (0 <= m)%Z -> signed s (binary_round_aux p em s m e l).
Proof.
  intros H. unfold binary_round_aux.
  pose proof (shr_fexp_nonneg p em m e l H) as H1.
  destruct (shr_fexp p em m e l) as [mrs' e']. cbn [fst] in H1.
  pose proof (shr_fexp_nonneg p em _ e' loc_Exact
                (round_nearest_even_nonneg _ (loc_of_shr_record mrs') H1)) as H2.
  destruct (shr_fexp p em _ e' loc_Exact) as [mrs'' e'']. cbn [fst] in H2.
  destruct (shr_m mrs'') as [|q|q]; [reflexivity| |lia].
  now destruct (Z.leb e'' (em - p)).
Qed.

Lemma binary_round_aux_sign p em s m e l :
  binary_round_aux p em s m e l = S754_nan \/ signed s (binary_round_aux p em s m e l).
Proof.
  unfold binary_round_aux.
  destruct (shr_fexp p em m e l) as [mrs' e'].
  destruct (shr_fexp p em _ e' loc_Exact) as [mrs'' e''].
  destruct (shr_m mrs'') as [|q|q]; [now right| |now left].
  right. now destruct (Z.leb e'' (em - p)).
Qed.

Lemma SFdiv_core_nonneg p em m1 e1 m2 e2 :
  (0 <= fst (fst (SFdiv_core_binary p em (Zpos m1) e1 (Zpos m2) e2)))%Z.
Proof.
  unfold SFdiv_core_binary.
  set (s := (e1 - e2 - _)%Z).
  set (m' := match s with Zpos _ => Z.shiftl (Zpos m1) s | Z0 => Zpos m1 | Zneg _ => 0%Z end).
  assert (Hm : (0 <= m')%Z).
  { subst m'. destruct s; try lia. apply Z.shiftl_nonneg. lia. }
  pose proof (Z_div_mod m' (Zpos m2) eq_refl) as Hd.
  destruct (Z.div_eucl m' (Zpos m2)) as [q r]. cbn [fst].
  destruct Hd as [Hd Hr]. nia.
Qed.

Lemma SFdiv_finite_signed p em sx mx ex sy my ey :
  signed (xorb sx sy) (SFdiv p em (S754_finite sx mx ex) (S754_finite sy my ey)).
Proof.
  cbn [SFdiv].
  pose proof (SFdiv_core_nonneg p em mx ex my ey) as H.
  destruct (SFdiv_core_binary p em (Zpos mx) ex (Zpos my) ey) as [[mz ez] lz].
  cbn [fst] in H. now apply binary_round_aux_signed.
Qed.

Lemma SFcompare_antisym x y c :
  SFcompare x y = Some c -> SFcompare y x = Some (CompOpp c).
Proof.
  destruct x as [sx|sx| |sx mx ex], y as [sy|sy| |sy my ey]; cbn [SFcompare];
    try discriminate; intros H; injection H as <-;
    try (now destruct sx); try (now destruct sy); try reflexivity.
  - now destruct sx, sy.
  - f_equal. rewrite (Z.compare_antisym ey ex).
    rewrite !Pos.compare_cont_spec. cbn [Pos.switch_Eq].
    rewrite (Pos.compare_antisym my mx).
    destruct sx, sy; cbn; try reflexivity;
      destruct (ey ?= ex)%Z; cbn; try reflexivity;
      destruct (my ?= mx)%positive; reflexivity.
Qed.

Lemma SFltb_not_positive d x :
  not_positive_sf x -> SFltb d x = true -> SFltb d (S754_zero false) = true.
Proof.
  destruct x as [s|s| |s m e]; cbn [not_positive_sf]; intros Hx; try subst s;
    destruct d as [sd|sd| |sd md ed]; cbn; try discriminate; trivial;
    destruct sd; cbn; trivial; discriminate.
Qed.

Lemma positive_or_not x : positive_sf x \/ not_positive_sf x.
Proof. destruct x as [s|[]| |[] m e]; cbn; auto. Qed.

Lemma twice_plus_zero_not_positive x :
  not_positive_sf x ->
  not_positive_sf
    (SF64add (SF64mul (S754_finite false 4503599627370496 (-51)) x)
       (S754_zero false)).
Proof.
  destruct x as [s|s| |s m e]; cbn [not_positive_sf]; intros Hx; try subst s.
  - now destruct s.
  - exact eq_refl.
  - exact I.
  - unfold SF64mul. cbn [SFmul xorb].
    destruct (binary_round_aux_sign prec emax true
                (Zpos (4503599627370496 * m)) (-51 + e) loc_Exact) as [H|H];
      [now rewrite H|].
    destruct (binary_round_aux _ _ _ _ _ _) as [s|s| |s m' e'];
      cbn [signed] in H; try subst s; try contradiction; cbn; trivial.
Qed.

(** With a jump of zero, the test [dist < 2 * radius + jump] only succeeds for
    a radius above zero, unless the distance is below zero. *)
Lemma near_with_zero_jump d r :
  (d <? 0) = false -> (d <? 2.0 * r + 0) = true -> positive_sf (Prim2SF r).
Proof.
  rewrite !ltb_spec, add_spec, mul_spec.
  change (Prim2SF 0) with (S754_zero false).
  change (Prim2SF 2.0) with (S754_finite false 4503599627370496 (-51)).
  intros Hd Hc. destruct (positive_or_not (Prim2SF r)) as [H|H]; [exact H|].
  apply twice_plus_zero_not_positive in H.
  now rewrite (SFltb_not_positive _ _ H Hc) in Hd.
Qed.

Lemma div_zero_clamped r :
  positive_sf (Prim2SF r) -> py_min (r / 0) 1 = 1.
Proof.
  intros H. unfold py_min.
  assert (E : (1 <? r / 0) = true); [|now rewrite E].
  rewrite ltb_spec, div_spec.
  change (Prim2SF 0) with (S754_zero false).
  destruct (Prim2SF r) as [s|[]| |[] m e]; cbn in H; try contradiction; reflexivity.
Qed.

Lemma throttle_zero_jump d r :
  (d <? 0) = false ->
  (if d <? 2.0 * r + 0 then py_min (r / 0) 1 else 1.0) = 1.
Proof.
  intros Hd. destruct (d <? 2.0 * r + 0) eqn:Hc; [|reflexivity].
  apply div_zero_clamped. now apply near_with_zero_jump with d.
Qed.

Lemma SF64div_nonneg x y :
  nonneg_sf x -> SFltb x (S754_infinity false) = true -> positive_sf y ->
  nonneg_sf (SF64div x y).
Proof.
  destruct x as [sx|sx| |sx mx ex]; cbn [nonneg_sf]; intros Hx Hf Hy;
    try subst sx; try contradiction; try discriminate;
    destruct y as [sy|[]| |[] my ey]; cbn [positive_sf] in Hy;
    try contradiction; try exact I; try reflexivity.
  pose proof (SFdiv_finite_signed prec emax false mx ex false my ey) as H.
  unfold SF64div. destruct (SFdiv _ _ _ _) as [s|s| |s m e];
    cbn [signed xorb] in H; cbn; trivial.
Qed.

Lemma clamp_unit q :
  nonneg_sf (Prim2SF q) -> unit_sail (py_min q 1) = true.
Proof.
  intros Hq. unfold py_min, unit_sail.
  destruct (1 <? q) eqn:E; [reflexivity|].
  rewrite ltb_spec in E. rewrite !leb_spec.
  change (Prim2SF 0) with (S754_zero false).
  change (Prim2SF 1) with (S754_finite false 4503599627370496 (-52)) in *.
  apply andb_true_iff. split.
  - destruct (Prim2SF q) as [s|s| |s m e]; cbn in Hq; try subst s;
      try contradiction; reflexivity.
  - unfold SFltb in E. unfold SFleb.
    destruct (SFcompare (S754_finite false 4503599627370496 (-52)) (Prim2SF q))
      as [c|] eqn:Ec.
    + rewrite (SFcompare_antisym _ _ _ Ec). now destruct c.
    + destruct (Prim2SF q) as [s|s| |s m e]; cbn in Hq, Ec;
        try contradiction; discriminate.
Qed.

Lemma throttle_unit d r j :
  (0 <=? r) = true -> (r <? infinity) = true ->
  (d <? 0) = false ->
  j = 0 \/ (0 <? j) = true ->
  unit_sail (if d <? 2.0 * r + j then py_min (r / j) 1 else 1.0) = true.
Proof.
  intros Hr Hf Hd [->|Hj].
  - now rewrite throttle_zero_jump.
  - destruct (d <? 2.0 * r + j); [|reflexivity].
    apply clamp_unit. rewrite div_spec.
    rewrite leb_spec in Hr. rewrite !ltb_spec in *.
    change (Prim2SF 0) with (S754_zero false) in *.
    change (Prim2SF infinity) with (S754_infinity false) in *.
    apply SF64div_nonneg; [|exact Hf|].
    + destruct (Prim2SF r) as [s|s| |s m e]; cbn in Hr |- *; trivial;
        try discriminate; destruct s; trivial; discriminate.
    + destruct (Prim2SF j) as [s|s| |s m e]; cbn in Hj |- *; trivial;
        try discriminate; destruct s; trivial; discriminate.
Qed.

(** ** The loop, iteration by iteration *)

Section Scan.

Variable distance_on_surface : float -> float -> float -> float -> float.
Variable linalg_norm : float -> float.
Variables dt longitude latitude speed : float.

Local Abbreviation visit := (Bot.visit distance_on_surface linalg_norm dt longitude latitude speed).
Local Abbreviation for_course := (Bot.for_course distance_on_surface linalg_norm dt longitude latitude speed).
Local Abbreviation dist := (Bot.dist distance_on_surface longitude latitude).
Local Abbreviation throttle := (Bot.throttle distance_on_surface linalg_norm dt longitude latitude speed).
Local Abbreviation within := (Bot.within distance_on_surface longitude latitude).
Local Abbreviation mark := (Bot.mark distance_on_surface longitude latitude).
Local Abbreviation passed := (Bot.passed distance_on_surface longitude latitude).
Local Abbreviation scanned := (Bot.scanned distance_on_surface longitude latitude).
Local Abbreviation examined := (Bot.examined distance_on_surface longitude latitude).

Lemma reached_mark ch : Checkpoint.reached (mark ch) = passed ch.
Proof.
  unfold Bot.mark, Bot.passed.
  destruct (within ch); simpl; [now rewrite orb_true_r | now rewrite orb_false_r].
Qed.

Lemma geometry_mark ch : geometry (mark ch) = geometry ch.
Proof. unfold Bot.mark. now destruct (within ch). Qed.

Lemma target_mark ch : Bot.target (mark ch) = Bot.target ch.
Proof. unfold Bot.mark. now destruct (within ch). Qed.

Lemma visit_eq instructions ch :
  visit instructions ch =
    (if passed ch
     then Instructions.set_sail instructions (throttle ch)
     else Instructions.set_location
            (Instructions.set_sail instructions (throttle ch)) (Bot.target ch),
     mark ch, negb (passed ch)).
Proof.
  unfold Bot.visit.
  fold (dist ch). fold (Bot.jump linalg_norm dt speed). fold (within ch). fold (mark ch).
  rewrite reached_mark.
  assert (E : (if dist ch <? 2.0 * Checkpoint.radius ch + Bot.jump linalg_norm dt speed
               then Instructions.set_sail instructions
                      (py_min (Checkpoint.radius ch / Bot.jump linalg_norm dt speed) 1)
               else Instructions.set_sail instructions 1.0)
              = Instructions.set_sail instructions (throttle ch)).
  { unfold Bot.throttle.
    now destruct (dist ch <? 2.0 * Checkpoint.radius ch + Bot.jump linalg_norm dt speed). }
  rewrite E. fold (Bot.target (mark ch)). rewrite target_mark.
  now destruct (passed ch).
Qed.

Lemma for_course_cons instructions ch rest :
  for_course instructions (ch :: rest) =
    if passed ch
    then (fst (for_course (Instructions.set_sail instructions (throttle ch)) rest),
          mark ch :: snd (for_course (Instructions.set_sail instructions (throttle ch)) rest))
    else (Instructions.set_location
            (Instructions.set_sail instructions (throttle ch)) (Bot.target ch),
          mark ch :: rest).
Proof.
  cbn [Bot.for_course]. rewrite visit_eq.
  destruct (passed ch); cbn [negb]; [|reflexivity].
  now destruct (for_course _ rest).
Qed.

Lemma last_error_scanned_cons ch rest :
  last_error (scanned (ch :: rest)) =
    if passed ch
    then match last_error (scanned rest) with
         | Some c => Some c
         | None => Some ch
         end
    else Some ch.
Proof.
  cbn [Bot.scanned]. destruct (passed ch); [|reflexivity].
  apply last_error_cons.
Qed.

(** The sail that the loop leaves is the one of the last examined
    checkpoint. *)
Lemma for_course_sail course : forall instructions,
  Instructions.sail (fst (for_course instructions course)) =
    match last_error (scanned course) with
    | Some ch => Some (throttle ch)
    | None => Instructions.sail instructions
    end.
Proof.
  induction course as [|ch rest IH]; intros instructions; [reflexivity|].
  rewrite for_course_cons, last_error_scanned_cons.
  destruct (passed ch); cbn [fst]; [|reflexivity].
  rewrite IH. now destruct (last_error (scanned rest)).
Qed.

(** The location that the loop leaves is the one of the first checkpoint
    that is not reached after its check. *)
Lemma for_course_location course : forall instructions,
  Instructions.location (fst (for_course instructions course)) =
    match find (fun ch => negb (passed ch)) course with
    | Some ch => Some (Bot.target ch)
    | None => Instructions.location instructions
    end.
Proof.
  induction course as [|ch rest IH]; intros instructions; [reflexivity|].
  rewrite for_course_cons. cbn [find].
  destruct (passed ch); cbn [fst negb]; [|reflexivity].
  now rewrite IH.
Qed.

(** The loop assigns no other field of the instructions. *)
Lemma for_course_other course : forall instructions,
  let i := fst (for_course instructions course) in
  Instructions.heading i = Instructions.heading instructions /\
  Instructions.vector i = Instructions.vector instructions /\
  Instructions.left i = Instructions.left instructions /\
  Instructions.right i = Instructions.right instructions.
Proof.
  induction course as [|ch rest IH]; intros instructions; [now cbn|].
  cbn zeta. rewrite for_course_cons.
  destruct (passed ch); cbn [fst]; [|now cbn].
  apply (IH (Instructions.set_sail instructions (throttle ch))).
Qed.

(** The course after the loop, checkpoint by checkpoint. *)
Lemma for_course_nth course : forall instructions k ch,
  nth_error course k = Some ch ->
  nth_error (snd (for_course instructions course)) k =
    Some (if examined course k then mark ch else ch).
Proof.
  induction course as [|c rest IH]; intros instructions k ch H.
  - now destruct k.
  - rewrite for_course_cons. destruct k as [|k]; cbn [nth_error] in H.
    + injection H as ->. now destruct (passed ch).
    + unfold Bot.examined. cbn [firstn forallb].
      destruct (passed c); cbn [snd nth_error andb]; [|exact H].
      now apply IH.
Qed.

Lemma for_course_length course : forall instructions,
  length (snd (for_course instructions course)) = length course.
Proof.
  induction course as [|c rest IH]; intros instructions; [reflexivity|].
  rewrite for_course_cons.
  destruct (passed c); cbn [snd length]; [|reflexivity].
  now rewrite IH.
Qed.

Lemma for_course_geometry course : forall instructions,
  map geometry (snd (for_course instructions course)) = map geometry course.
Proof.
  induction course as [|c rest IH]; intros instructions; [reflexivity|].
  rewrite for_course_cons.
  destruct (passed c); cbn [snd map]; rewrite geometry_mark; [|reflexivity].
  now rewrite IH.
Qed.

(** Every checkpoint is reached after the loop exactly when the loop did
    not stop at any of them. *)
Lemma for_course_all_reached course : forall instructions,
  forallb Checkpoint.reached (snd (for_course instructions course)) = true ->
  forallb passed course = true.
Proof.
  induction course as [|c rest IH]; intros instructions; [reflexivity|].
  rewrite for_course_cons. cbn [forallb].
  destruct (passed c) eqn:E; cbn [snd forallb]; rewrite reached_mark, E;
    cbn [andb]; [apply IH | discriminate].
Qed.

Lemma scanned_all_passed course :
  forallb passed course = true -> scanned course = course.
Proof.
  induction course as [|c rest IH]; [reflexivity|].
  cbn [forallb Bot.scanned].
  destruct (passed c); cbn [andb]; [|discriminate].
  intros H. now rewrite IH.
Qed.

Lemma find_all_passed course :
  forallb passed course = true ->
  find (fun ch => negb (passed ch)) course = None.
Proof.
  induction course as [|c rest IH]; [reflexivity|].
  cbn [forallb find].
  destruct (passed c); cbn [andb negb]; [exact IH | discriminate].
Qed.

(** Past an examined checkpoint of a longer course, the loop ends at a
    later checkpoint: the last one it examines. *)
Lemma last_scanned_nonempty c rest :
  exists k nxt,
    nth_error (c :: rest) k = Some nxt /\
    last_error (scanned (c :: rest)) = Some nxt /\
    find (fun ch => negb (passed ch)) (c :: rest) =
      (if passed nxt then None else Some nxt).
Proof.
  revert c. induction rest as [|d rest IH]; intros c.
  - exists 0%nat, c. cbn [nth_error Bot.scanned find].
    now destruct (passed c).
  - rewrite last_error_scanned_cons. cbn [find].
    destruct (passed c) eqn:E; cbn [negb].
    + destruct (IH d) as (k & nxt & Hk & Hl & Hf).
      exists (S k), nxt. rewrite Hl. now repeat split.
    + exists 0%nat, c. now rewrite E.
Qed.

Lemma last_scanned_after course : forall i,
  examined course i = true ->
  (i < length course)%nat ->
  exists k nxt,
    (i <= k)%nat /\
    nth_error course k = Some nxt /\
    last_error (scanned course) = Some nxt /\
    find (fun ch => negb (passed ch)) course =
      (if passed nxt then None else Some nxt).
Proof.
  induction course as [|c rest IH]; intros i He Hi; [cbn in Hi; lia|].
  destruct i as [|i].
  - destruct (last_scanned_nonempty c rest) as (k & nxt & H).
    exists k, nxt. split; [lia | exact H].
  - unfold Bot.examined in He. cbn [firstn forallb] in He.
    apply andb_true_iff in He as [Hc He].
    destruct (IH i He) as (k & nxt & Hk & Hn & Hl & Hf); [cbn in Hi; lia|].
    exists (S k), nxt. rewrite last_error_scanned_cons, Hc, Hl.
    cbn [find nth_error]. rewrite Hc. cbn [negb].
    repeat split; [lia | exact Hn | exact Hf].
Qed.

Lemma scanned_In course x : In x (scanned course) -> In x course.
Proof.
  induction course as [|c rest IH]; [trivial|].
  cbn [Bot.scanned]. intros [->|H]; [now left|].
  destruct (passed c); [right; now apply IH | contradiction].
Qed.

(** On a course that is not empty the loop examines a checkpoint. *)
Lemma last_examined_exists course :
  course <> [] ->
  exists ch, last_error (scanned course) = Some ch /\ In ch course.
Proof.
  destruct course as [|c rest]; [congruence|]. intros _.
  destruct (last_error_nonempty c (if passed c then scanned rest else []))
    as [ch H].
  exists ch. split; [exact H|].
  apply scanned_In. now apply last_error_In.
Qed.

End Scan.

(** ** A call of [run] *)

Section Claims.

Variable distance_on_surface : float -> float -> float -> float -> float.
Variable linalg_norm : float -> float.

Local Abbreviation run := (Bot.run distance_on_surface linalg_norm).
Local Abbreviation for_course := (Bot.for_course distance_on_surface linalg_norm).
Local Abbreviation visit := (Bot.visit distance_on_surface linalg_norm).
Local Abbreviation dist := (Bot.dist distance_on_surface).
Local Abbreviation throttle := (Bot.throttle distance_on_surface linalg_norm).
Local Abbreviation within := (Bot.within distance_on_surface).
Local Abbreviation passed := (Bot.passed distance_on_surface).
Local Abbreviation scanned := (Bot.scanned distance_on_surface).
Local Abbreviation examined := (Bot.examined distance_on_surface).

Section OneCall.

Context {Forecast Terrain : Type}.
Variable self : Bot.t.
Variables t dt longitude latitude heading speed : float.
Variable vector : list float.
Variable forecast : float -> float -> Z -> Forecast.
Variable world_map : float -> float -> Terrain.

Lemma run_eq :
  run self t dt longitude latitude heading speed vector forecast world_map =
    (fst (for_course dt longitude latitude speed Instructions.new (Bot.course self)),
     {| Bot.team := Bot.team self;
        Bot.course :=
          snd (for_course dt longitude latitude speed Instructions.new
                 (Bot.course self)) |}).
Proof.
  unfold Bot.run.
  now destruct (for_course dt longitude latitude speed Instructions.new (Bot.course self)).
Qed.

(** C1: when a checkpoint [ch] is examined, the sail of the instructions
    is set to [min(radius / jump, 1)] if [dist < 2 * radius + jump] and to
    [1.0] otherwise, with [dist] the distance from the position to [ch]
    and [jump = dt * |speed|]; the sail that [run] returns is this value
    for the last checkpoint it examined. *)
Theorem run_sail_examined (instructions : Instructions.t) (ch : Checkpoint.t) :
  let dist :=
    distance_on_surface longitude latitude
      (Checkpoint.longitude ch) (Checkpoint.latitude ch) in
  let jump := dt * linalg_norm speed in
  let sail :=
    if dist <? 2.0 * Checkpoint.radius ch + jump
    then py_min (Checkpoint.radius ch / jump) 1
    else 1.0 in
  Instructions.sail
    (fst (fst (visit dt longitude latitude speed instructions ch))) = Some sail
  /\ (last_error (scanned longitude latitude (Bot.course self)) = Some ch ->
      Instructions.sail
        (fst (run self t dt longitude latitude heading speed vector
                forecast world_map)) = Some sail).
Proof.
  cbn zeta. split.
  - rewrite visit_eq. cbn [fst]. now destruct (passed longitude latitude ch).
  - intros H. rewrite run_eq. cbn [fst]. rewrite for_course_sail, H. reflexivity.
Qed.

(** C2 (amended): [run] returns as target the location of the first
    checkpoint, in course order, that is not reached after its check, and
    leaves every checkpoint behind it as it was.  If the position is
    within the radius of checkpoint [i] and the checkpoints before it are
    reached, checkpoint [i] is reached after the call, and the target is
    the location of checkpoint [i+1] provided that one is neither reached
    already nor within its radius of the position. *)
Theorem run_target :
  let r := run self t dt longitude latitude heading speed vector
             forecast world_map in
  Instructions.location (fst r) =
    option_map Bot.target
      (find (fun c => negb (passed longitude latitude c)) (Bot.course self))
  /\ (forall k c, nth_error (Bot.course self) k = Some c ->
                  examined longitude latitude (Bot.course self) k = false ->
                  nth_error (Bot.course (snd r)) k = Some c)
  /\ (forall i ch,
        nth_error (Bot.course self) i = Some ch ->
        (forall j cj, (j < i)%nat -> nth_error (Bot.course self) j = Some cj ->
                      Checkpoint.reached cj = true) ->
        (distance_on_surface longitude latitude
           (Checkpoint.longitude ch) (Checkpoint.latitude ch)
         <? Checkpoint.radius ch) = true ->
        reached_at (snd r) i = Some true
        /\ (forall nxt, nth_error (Bot.course self) (S i) = Some nxt ->
                        passed longitude latitude nxt = false ->
                        Instructions.location (fst r) = Some (Bot.target nxt))).
Proof.
  intros r.
  assert (Hloc : Instructions.location (fst r) =
            option_map Bot.target
              (find (fun c => negb (passed longitude latitude c))
                 (Bot.course self))).
  { subst r. rewrite run_eq. cbn [fst]. rewrite for_course_location.
    now destruct (find _ (Bot.course self)). }
  split; [exact Hloc|]. split.
  - intros k c Hk Hne. subst r. rewrite run_eq. cbn [snd Bot.course].
    rewrite (for_course_nth _ _ _ _ _ _ _ _ k c Hk), Hne. reflexivity.
  - intros i ch Hi Hbefore Hin.
    assert (Hex : examined longitude latitude (Bot.course self) i = true).
    { apply forallb_firstn_nth. intros j a Hj Ha.
      unfold Bot.passed. now rewrite (Hbefore j a Hj Ha). }
    assert (Hpass : passed longitude latitude ch = true).
    { unfold Bot.passed, Bot.within, Bot.dist. rewrite Hin. apply orb_true_r. }
    split.
    + unfold reached_at. subst r. rewrite run_eq. cbn [snd Bot.course].
      rewrite (for_course_nth _ _ _ _ _ _ _ _ i ch Hi), Hex. cbn [option_map].
      now rewrite reached_mark, Hpass.
    + intros nxt Hn Hp. rewrite Hloc.
      rewrite (find_first_failing _ _ (S i) nxt Hn); [reflexivity| |exact Hp].
      apply forallb_firstn_nth. intros j a Hj Ha.
      destruct (Nat.eq_dec j i) as [->|Hne].
      * rewrite Hi in Ha. injection Ha as <-. exact Hpass.
      * unfold Bot.passed. rewrite (Hbefore j a); [reflexivity | lia | exact Ha].
Qed.

(** C3: the flag of a checkpoint goes from false to true in a call exactly
    when the checkpoint is examined in the call and [dist < radius]; a
    checkpoint that is not examined, or for which [dist < radius] does not
    hold, keeps its flag. *)
Theorem reached_transition (k : nat) (ch ch' : Checkpoint.t) :
  nth_error (Bot.course self) k = Some ch ->
  nth_error
    (Bot.course (snd (run self t dt longitude latitude heading speed vector
                        forecast world_map))) k = Some ch' ->
  let dist :=
    distance_on_surface longitude latitude
      (Checkpoint.longitude ch) (Checkpoint.latitude ch) in
  (Checkpoint.reached ch = false ->
   (Checkpoint.reached ch' = true <->
    examined longitude latitude (Bot.course self) k = true /\
    (dist <? Checkpoint.radius ch) = true))
  /\ (examined longitude latitude (Bot.course self) k = false \/
      (dist <? Checkpoint.radius ch) = false ->
      Checkpoint.reached ch' = Checkpoint.reached ch).
Proof.
  intros Hk Hk'. rewrite run_eq in Hk'. cbn [snd Bot.course] in Hk'.
  rewrite (for_course_nth _ _ _ _ _ _ _ _ k ch Hk) in Hk'.
  injection Hk' as <-. cbn zeta.
  fold (dist longitude latitude ch). fold (within longitude latitude ch).
  destruct (examined longitude latitude (Bot.course self) k).
  - rewrite reached_mark. unfold Bot.passed. split.
    + intros ->. cbn [orb]. now intuition.
    + intros [H|H]; [discriminate|]. rewrite H. apply orb_false_r.
  - split; [|reflexivity]. intros ->. split; [discriminate|]. now intros [H _].
Qed.

(** C5 (amended): in a call in which checkpoint [i] is marked reached
    and the course has a further checkpoint, the loop goes on and ends at
    a later checkpoint, the last one it examines; the sail that [run]
    returns is the throttle computed against that checkpoint, which is the
    one whose location is returned as target when a target is returned. *)
Theorem run_sail_of_last_examined (i : nat) (ch : Checkpoint.t) :
  nth_error (Bot.course self) i = Some ch ->
  examined longitude latitude (Bot.course self) i = true ->
  Checkpoint.reached ch = false ->
  (distance_on_surface longitude latitude
     (Checkpoint.longitude ch) (Checkpoint.latitude ch)
   <? Checkpoint.radius ch) = true ->
  (S i < length (Bot.course self))%nat ->
  let r := run self t dt longitude latitude heading speed vector
             forecast world_map in
  exists k nxt,
    (i < k)%nat /\
    nth_error (Bot.course self) k = Some nxt /\
    last_error (scanned longitude latitude (Bot.course self)) = Some nxt /\
    Instructions.sail (fst r) =
      Some (throttle dt longitude latitude speed nxt) /\
    Instructions.location (fst r) =
      (if passed longitude latitude nxt then None
       else Some (Bot.target nxt)).
Proof.
  intros Hi Hex Hr Hin Hlen r.
  assert (Hex' : examined longitude latitude (Bot.course self) (S i) = true).
  { apply forallb_firstn_nth. intros j a Hj Ha.
    destruct (Nat.eq_dec j i) as [->|Hne].
    - rewrite Hi in Ha. injection Ha as <-.
      unfold Bot.passed, Bot.within, Bot.dist. rewrite Hin. apply orb_true_r.
    - unfold Bot.examined in Hex.
      assert (Hj' : (j < i)%nat) by lia.
      assert (Hf : nth_error (firstn i (Bot.course self)) j = Some a).
      { rewrite nth_error_firstn.
        destruct (Nat.ltb_spec j i); [exact Ha | lia]. }
      rewrite forallb_forall in Hex. apply Hex.
      eapply nth_error_In. exact Hf. }
  destruct (last_scanned_after distance_on_surface longitude latitude
              (Bot.course self) (S i) Hex' Hlen)
    as (k & nxt & Hk & Hn & Hl & Hf).
  exists k, nxt. split; [lia|]. split; [exact Hn|]. split; [exact Hl|].
  subst r. rewrite run_eq. cbn [fst].
  rewrite for_course_sail, for_course_location, Hl, Hf.
  split; [reflexivity|]. now destruct (passed longitude latitude nxt).
Qed.

(** C8: if every checkpoint of the course is reached after the call,
    whether it was reached before the call or during it, the instructions
    that [run] returns carry no location (and no other command), only the
    sail computed from the last checkpoint of the course, which is the last
    one examined. *)
Theorem run_course_complete :
  let r := run self t dt longitude latitude heading speed vector
             forecast world_map in
  forallb Checkpoint.reached (Bot.course (snd r)) = true ->
  Instructions.location (fst r) = None /\
  Instructions.heading (fst r) = None /\
  Instructions.vector (fst r) = None /\
  Instructions.left (fst r) = None /\
  Instructions.right (fst r) = None /\
  last_error (scanned longitude latitude (Bot.course self)) =
    last_error (Bot.course self) /\
  Instructions.sail (fst r) =
    option_map (throttle dt longitude latitude speed)
      (last_error (Bot.course self)).
Proof.
  intros r H. subst r. rewrite run_eq in *. cbn [fst snd Bot.course] in *.
  apply for_course_all_reached in H.
  rewrite for_course_location, for_course_sail.
  rewrite (find_all_passed _ _ _ _ H), (scanned_all_passed _ _ _ _ H).
  destruct (for_course_other distance_on_surface linalg_norm dt longitude
              latitude speed (Bot.course self) Instructions.new)
    as (Hh & Hv & Hl & Hr).
  cbn zeta in Hh, Hv, Hl, Hr. rewrite Hh, Hv, Hl, Hr.
  now repeat split.
Qed.

(** C9: a call changes nothing but reached flags: the latitude, longitude
    and radius of every checkpoint, the length and the order of the
    course, and the team of the bot are the same after the call. *)
Theorem run_frame :
  let r := run self t dt longitude latitude heading speed vector
             forecast world_map in
  map geometry (Bot.course (snd r)) = map geometry (Bot.course self) /\
  length (Bot.course (snd r)) = length (Bot.course self) /\
  Bot.team (snd r) = Bot.team self.
Proof.
  cbn zeta. rewrite run_eq. cbn [snd Bot.course Bot.team].
  rewrite for_course_geometry, for_course_length. now repeat split.
Qed.

(** C4 (amended): when [jump = dt * |speed|] is the float [+0.0] (a
    vessel that stands still, or a time step of [+0.0]) and no distance to
    a checkpoint is below zero, [run] on a course that is not empty
    returns the sail [1.0]: the quotient [radius / jump] is only taken for
    a radius above zero, it is [+inf] by binary64 division, and [min]
    clamps it to 1.  The division itself is not guarded. *)
Theorem run_sail_zero_jump :
  Bot.course self <> [] ->
  Forall
    (fun ch =>
       (distance_on_surface longitude latitude
          (Checkpoint.longitude ch) (Checkpoint.latitude ch) <? 0) = false)
    (Bot.course self) ->
  dt * linalg_norm speed = 0 ->
  Instructions.sail
    (fst (run self t dt longitude latitude heading speed vector
            forecast world_map)) = Some 1.
Proof.
  intros Hne Hd Hj. rewrite run_eq. cbn [fst]. rewrite for_course_sail.
  destruct (last_examined_exists distance_on_surface longitude latitude
              (Bot.course self) Hne) as (ch & -> & Hin).
  rewrite Forall_forall in Hd. specialize (Hd ch Hin).
  unfold Bot.throttle, Bot.dist, Bot.jump. rewrite Hj.
  f_equal. now apply throttle_zero_jump.
Qed.

(** C6 (amended): on a course that is not empty and whose radii are
    finite and not below zero, when no distance to a checkpoint is below
    zero and [jump = dt * |speed|] is [+0.0] or above zero, the sail that
    [run] returns lies in the closed interval from 0 to 1. *)
Theorem run_sail_unit :
  Bot.course self <> [] ->
  Forall
    (fun ch =>
       (0 <=? Checkpoint.radius ch) = true /\
       (Checkpoint.radius ch <? infinity) = true)
    (Bot.course self) ->
  Forall
    (fun ch =>
       (distance_on_surface longitude latitude
          (Checkpoint.longitude ch) (Checkpoint.latitude ch) <? 0) = false)
    (Bot.course self) ->
  dt * linalg_norm speed = 0 \/ (0 <? dt * linalg_norm speed) = true ->
  exists s,
    Instructions.sail
      (fst (run self t dt longitude latitude heading speed vector
              forecast world_map)) = Some s /\
    unit_sail s = true.
Proof.
  intros Hne Hr Hd Hj. rewrite run_eq. cbn [fst]. rewrite for_course_sail.
  destruct (last_examined_exists distance_on_surface longitude latitude
              (Bot.course self) Hne) as (ch & -> & Hin).
  rewrite Forall_forall in Hr, Hd.
  destruct (Hr ch Hin) as [Hr0 Hrf]. specialize (Hd ch Hin).
  eexists. split; [reflexivity|].
  unfold Bot.throttle, Bot.dist, Bot.jump. now apply throttle_unit.
Qed.

(** A flag that is set stays set during a call. *)
Lemma run_keeps_reached (k : nat) :
  reached_at self k = Some true ->
  reached_at
    (snd (run self t dt longitude latitude heading speed vector
            forecast world_map)) k = Some true.
Proof.
  unfold reached_at. rewrite run_eq. cbn [snd Bot.course].
  destruct (nth_error (Bot.course self) k) as [ch|] eqn:E; [|discriminate].
  cbn [option_map]. intros H. injection H as H.
  rewrite (for_course_nth _ _ _ _ _ _ _ _ k ch E). cbn [option_map].
  destruct (examined longitude latitude (Bot.course self) k);
    [|now rewrite H].
  rewrite reached_mark. unfold Bot.passed. now rewrite H.
Qed.

End OneCall.

(** C10: two calls on the same bot with the same [t], [dt], position,
    heading, speed and vector return the same instructions and leave the
    same bot, whatever the two [forecast] functions and the two [world_map]
    functions return. *)
Theorem run_ignores_queries
  {Forecast1 Terrain1 Forecast2 Terrain2 : Type} (self : Bot.t)
  (t dt longitude latitude heading speed : float) (vector : list float)
  (forecast1 : float -> float -> Z -> Forecast1)
  (world_map1 : float -> float -> Terrain1)
  (forecast2 : float -> float -> Z -> Forecast2)
  (world_map2 : float -> float -> Terrain2) :
  run self t dt longitude latitude heading speed vector forecast1 world_map1 =
  run self t dt longitude latitude heading speed vector forecast2 world_map2.
Proof.
  rewrite (run_eq self t dt longitude latitude heading speed vector
             forecast1 world_map1).
  rewrite (run_eq self t dt longitude latitude heading speed vector
             forecast2 world_map2).
  reflexivity.
Qed.

(** C7: the flags of the course that [__init__] builds are all false, and a
    flag that is true stays true through any sequence of calls of [run]. *)
Theorem reached_monotonic {Forecast Terrain : Type}
  (config_start : Location.t) (self : Bot.t)
  (calls : list (Call Forecast Terrain)) (k : nat) :
  Forall (fun ch => Checkpoint.reached ch = false)
    (Bot.course (Bot.init config_start))
  /\ (reached_at self k = Some true ->
      reached_at (run_calls distance_on_surface linalg_norm self calls) k
        = Some true).
Proof.
  split.
  - cbn [Bot.init Bot.course]. repeat constructor.
  - revert self. induction calls as [|c calls IH]; intros self H; [exact H|].
    cbn [run_calls]. apply IH. unfold run_call. now apply run_keeps_reached.
Qed.

End Claims.

(** ** Concrete calls *)

(** The vessel on the first checkpoint: the checkpoint becomes reached and the
    target is the second checkpoint. *)
Example call_on_first_checkpoint :
  let r := flat_run bot_at_start 1 (-67.647903) 19.642470 5 in
  Instructions.location (fst r) = Some (Bot.target second_checkpoint)
  /\ Instructions.sail (fst r) = Some 1
  /\ reached_at (snd r) 0 = Some true
  /\ reached_at (snd r) 1 = Some false.
Proof. cbn zeta. repeat split; vm_compute; reflexivity. Qed.

(** The vessel far from the first checkpoint: full sail, the target is the
    first checkpoint, and its flag stays false. *)
Example call_far_from_first_checkpoint :
  let r := flat_run bot_at_start 1 (-60) 30 5 in
  Instructions.location (fst r) = Some (Bot.target first_checkpoint)
  /\ Instructions.sail (fst r) = Some 1
  /\ reached_at (snd r) 0 = Some false.
Proof. cbn zeta. repeat split; vm_compute; reflexivity. Qed.

(** The same call with other answers to the two queries. *)
Example call_with_other_queries :
  Bot.run flat_distance scalar_norm bot_at_start 0 1 (-67.647903) 20.242470 0
    100 [] stormy_forecast all_land
  = flat_run bot_at_start 1 (-67.647903) 20.242470 100.
Proof. vm_compute. reflexivity. Qed.

(** C1 on the start course, 66.6 km north of the first checkpoint with a jump
    of 100 km: the loop stops there with the sail 50 / 100. *)
Lemma run_sail_examined_witness :
  last_error
    (Bot.scanned flat_distance (-67.647903) 20.242470 (Bot.course bot_at_start))
  = Some first_checkpoint
  /\ Instructions.sail (fst (flat_run bot_at_start 1 (-67.647903) 20.242470 100))
     = Some 0.5.
Proof.
  assert (H : last_error
                (Bot.scanned flat_distance (-67.647903) 20.242470
                   (Bot.course bot_at_start)) = Some first_checkpoint)
    by (vm_compute; reflexivity).
  split; [exact H|].
  exact (proj2 (run_sail_examined flat_distance scalar_norm bot_at_start 0 1
                  (-67.647903) 20.242470 0 100 [] no_forecast all_sea
                  Instructions.new first_checkpoint) H).
Defined.

(** C2 as stated fails: the position is inside the second and the third
    checkpoint of [overlapping_bot] and the first is reached; the call marks
    the second, index 1, and the target is the fourth checkpoint, not the
    third, index 2. *)
Lemma next_target_counterexample :
  let r := flat_run overlapping_bot 1 1 0 5 in
  reached_at overlapping_bot 0 = Some true
  /\ nth_error (Bot.course overlapping_bot) 1 = Some (Checkpoint.new 0 1 50)
  /\ (flat_distance 1 0 1 0 <? 50) = true
  /\ reached_at (snd r) 1 = Some true
  /\ nth_error (Bot.course overlapping_bot) 2 = Some (Checkpoint.new 0 1.1 50)
  /\ Instructions.location (fst r) = Some (Location.mk 10 0)
  /\ Instructions.location (fst r)
     <> Some (Bot.target (Checkpoint.new 0 1.1 50)).
Proof.
  cbn zeta. repeat split; try (vm_compute; reflexivity).
  intros H.
  apply (f_equal (fun l => match l with
                           | Some l => Location.longitude l =? 10
                           | None => false
                           end)) in H.
  vm_compute in H. discriminate H.
Qed.

(** C2 (amended) on the start course with the vessel on the first
    checkpoint. *)
Lemma run_target_witness :
  nth_error (Bot.course bot_at_start) 0 = Some first_checkpoint
  /\ (flat_distance (-67.647903) 19.642470
        (Checkpoint.longitude first_checkpoint)
        (Checkpoint.latitude first_checkpoint)
      <? Checkpoint.radius first_checkpoint) = true
  /\ reached_at (snd (flat_run bot_at_start 1 (-67.647903) 19.642470 100)) 0
     = Some true
  /\ Instructions.location
       (fst (flat_run bot_at_start 1 (-67.647903) 19.642470 100))
     = Some (Bot.target second_checkpoint).
Proof.
  assert (H0 : nth_error (Bot.course bot_at_start) 0 = Some first_checkpoint)
    by reflexivity.
  assert (Hin : (flat_distance (-67.647903) 19.642470
                   (Checkpoint.longitude first_checkpoint)
                   (Checkpoint.latitude first_checkpoint)
                 <? Checkpoint.radius first_checkpoint) = true)
    by (vm_compute; reflexivity).
  assert (Hb : forall j cj, (j < 0)%nat ->
                 nth_error (Bot.course bot_at_start) j = Some cj ->
                 Checkpoint.reached cj = true) by (intros j cj Hj; lia).
  destruct (run_target flat_distance scalar_norm bot_at_start 0 1 (-67.647903)
              19.642470 0 100 [] no_forecast all_sea) as (_ & _ & H).
  destruct (H 0%nat first_checkpoint H0 Hb Hin) as (Hr & Hn).
  split; [exact H0|]. split; [exact Hin|]. split; [exact Hr|].
  apply (Hn second_checkpoint); [reflexivity | vm_compute; reflexivity].
Defined.

(** C3 on the start course with the vessel on the first checkpoint. *)
Lemma reached_transition_witness :
  nth_error (Bot.course bot_at_start) 0 = Some first_checkpoint
  /\ nth_error
       (Bot.course (snd (flat_run bot_at_start 1 (-67.647903) 19.642470 100))) 0
     = Some (Checkpoint.set_reached first_checkpoint true)
  /\ Checkpoint.reached first_checkpoint = false
  /\ (Checkpoint.reached (Checkpoint.set_reached first_checkpoint true) = true
      <-> Bot.examined flat_distance (-67.647903) 19.642470
            (Bot.course bot_at_start) 0 = true
          /\ (flat_distance (-67.647903) 19.642470
                (Checkpoint.longitude first_checkpoint)
                (Checkpoint.latitude first_checkpoint)
              <? Checkpoint.radius first_checkpoint) = true).
Proof.
  assert (H0 : nth_error (Bot.course bot_at_start) 0 = Some first_checkpoint)
    by reflexivity.
  assert (H1 : nth_error
                 (Bot.course
                    (snd (flat_run bot_at_start 1 (-67.647903) 19.642470 100))) 0
               = Some (Checkpoint.set_reached first_checkpoint true))
    by (vm_compute; reflexivity).
  split; [exact H0|]. split; [exact H1|]. split; [reflexivity|].
  exact (proj1 (reached_transition flat_distance scalar_norm bot_at_start 0 1
                  (-67.647903) 19.642470 0 100 [] no_forecast all_sea 0
                  first_checkpoint (Checkpoint.set_reached first_checkpoint true)
                  H0 H1) eq_refl).
Defined.

(** C5 as stated fails: on the first checkpoint with a jump of 100 km the
    call marks it reached and goes on to the second; the throttle against
    the first is 0.5, against the second 1, and the call returns 1. *)
Lemma sail_of_old_checkpoint_counterexample :
  let r := flat_run bot_at_start 1 (-67.647903) 19.642470 100 in
  reached_at bot_at_start 0 = Some false
  /\ reached_at (snd r) 0 = Some true
  /\ Instructions.location (fst r) = Some (Bot.target second_checkpoint)
  /\ Bot.throttle flat_distance scalar_norm 1 (-67.647903) 19.642470 100 first_checkpoint
     = 0.5
  /\ Bot.throttle flat_distance scalar_norm 1 (-67.647903) 19.642470 100 second_checkpoint
     = 1
  /\ Instructions.sail (fst r) = Some 1
  /\ Instructions.sail (fst r)
     <> Some (Bot.throttle flat_distance scalar_norm 1 (-67.647903) 19.642470 100
                first_checkpoint).
Proof.
  cbn zeta. repeat split; try (vm_compute; reflexivity).
  intros H.
  apply (f_equal (fun s => match s with Some s => s =? 1 | None => false end))
    in H.
  vm_compute in H. discriminate H.
Qed.

(** C5 (amended) on the same call. *)
Lemma run_sail_of_last_examined_witness :
  nth_error (Bot.course bot_at_start) 0 = Some first_checkpoint
  /\ Bot.examined flat_distance (-67.647903) 19.642470
       (Bot.course bot_at_start) 0 = true
  /\ Checkpoint.reached first_checkpoint = false
  /\ (flat_distance (-67.647903) 19.642470
        (Checkpoint.longitude first_checkpoint)
        (Checkpoint.latitude first_checkpoint)
      <? Checkpoint.radius first_checkpoint) = true
  /\ (1 < length (Bot.course bot_at_start))%nat
  /\ exists k nxt,
       (0 < k)%nat /\
       nth_error (Bot.course bot_at_start) k = Some nxt /\
       last_error
         (Bot.scanned flat_distance (-67.647903) 19.642470
            (Bot.course bot_at_start)) = Some nxt /\
       Instructions.sail
         (fst (flat_run bot_at_start 1 (-67.647903) 19.642470 100))
       = Some (Bot.throttle flat_distance scalar_norm 1 (-67.647903) 19.642470 100 nxt) /\
       Instructions.location
         (fst (flat_run bot_at_start 1 (-67.647903) 19.642470 100))
       = (if Bot.passed flat_distance (-67.647903) 19.642470 nxt then None
          else Some (Bot.target nxt)).
Proof.
  assert (H0 : nth_error (Bot.course bot_at_start) 0 = Some first_checkpoint)
    by reflexivity.
  assert (Hin : (flat_distance (-67.647903) 19.642470
                   (Checkpoint.longitude first_checkpoint)
                   (Checkpoint.latitude first_checkpoint)
                 <? Checkpoint.radius first_checkpoint) = true)
    by (vm_compute; reflexivity).
  assert (Hl : (1 < length (Bot.course bot_at_start))%nat) by (cbn; lia).
  repeat (split; [first [exact H0 | exact Hin | exact Hl | reflexivity]|]).
  exact (run_sail_of_last_examined flat_distance scalar_norm bot_at_start 0 1
           (-67.647903) 19.642470 0 100 [] no_forecast all_sea 0
           first_checkpoint H0 eq_refl eq_refl Hin Hl).
Defined.

(** C4 as stated fails: with [dt = -0.0] the jump compares equal to zero,
    and 66.6 km from the first checkpoint the call returns the sail
    [50 / -0.0], minus infinity. *)
Lemma zero_jump_counterexample :
  let jump := Bot.jump scalar_norm (-0) 5 in
  (jump =? 0) = true
  /\ Instructions.sail (fst (flat_run bot_at_start (-0) (-67.647903) 20.242470 5))
     = Some neg_infinity
  /\ is_infinity neg_infinity = true.
Proof. cbn zeta. repeat split; vm_compute; reflexivity. Qed.

(** C4 (amended) for a vessel that stands still, [dt = 1]. *)
Lemma run_sail_zero_jump_witness :
  Bot.course bot_at_start <> []
  /\ Forall
       (fun ch =>
          (flat_distance (-67.647903) 20.242470
             (Checkpoint.longitude ch) (Checkpoint.latitude ch) <? 0) = false)
       (Bot.course bot_at_start)
  /\ 1 * scalar_norm 0 = 0
  /\ Instructions.sail (fst (flat_run bot_at_start 1 (-67.647903) 20.242470 0))
     = Some 1.
Proof.
  assert (Hne : Bot.course bot_at_start <> []) by discriminate.
  assert (Hd : Forall
                 (fun ch =>
                    (flat_distance (-67.647903) 20.242470
                       (Checkpoint.longitude ch) (Checkpoint.latitude ch) <? 0)
                    = false)
                 (Bot.course bot_at_start))
    by (repeat constructor).
  assert (Hj : 1 * scalar_norm 0 = 0) by reflexivity.
  split; [exact Hne|]. split; [exact Hd|]. split; [exact Hj|].
  exact (run_sail_zero_jump flat_distance scalar_norm bot_at_start 0 1 (-67.647903)
           20.242470 0 0 [] no_forecast all_sea Hne Hd Hj).
Defined.

(** C6 as stated fails: with [dt = -1] and a speed of 5 the jump is -5, and
    66.6 km from the first checkpoint the call returns the sail [50 / -5]. *)
Lemma unit_sail_counterexample :
  Instructions.sail (fst (flat_run bot_at_start (-1) (-67.647903) 20.242470 5))
  = Some (-10)
  /\ unit_sail (-10) = false.
Proof. split; vm_compute; reflexivity. Qed.

(** C6 (amended) on the start course. *)
Lemma run_sail_unit_witness :
  Bot.course bot_at_start <> []
  /\ Forall
       (fun ch =>
          (0 <=? Checkpoint.radius ch) = true /\
          (Checkpoint.radius ch <? infinity) = true)
       (Bot.course bot_at_start)
  /\ Forall
       (fun ch =>
          (flat_distance (-67.647903) 20.242470
             (Checkpoint.longitude ch) (Checkpoint.latitude ch) <? 0) = false)
       (Bot.course bot_at_start)
  /\ (0 <? 1 * scalar_norm 100) = true
  /\ exists s,
       Instructions.sail
         (fst (flat_run bot_at_start 1 (-67.647903) 20.242470 100)) = Some s
       /\ unit_sail s = true.
Proof.
  assert (Hne : Bot.course bot_at_start <> []) by discriminate.
  assert (Hr : Forall
                 (fun ch =>
                    (0 <=? Checkpoint.radius ch) = true /\
                    (Checkpoint.radius ch <? infinity) = true)
                 (Bot.course bot_at_start))
    by (repeat constructor).
  assert (Hd : Forall
                 (fun ch =>
                    (flat_distance (-67.647903) 20.242470
                       (Checkpoint.longitude ch) (Checkpoint.latitude ch) <? 0)
                    = false)
                 (Bot.course bot_at_start))
    by (repeat constructor).
  assert (Hj : (0 <? 1 * scalar_norm 100) = true) by reflexivity.
  split; [exact Hne|]. split; [exact Hr|]. split; [exact Hd|]. split; [exact Hj|].
  exact (run_sail_unit flat_distance scalar_norm bot_at_start 0 1 (-67.647903)
           20.242470 0 100 [] no_forecast all_sea Hne Hr Hd (or_intror Hj)).
Defined.

(** C7: the first checkpoint, reached in a first call, is still reached two
    calls later. *)
Lemma reached_monotonic_witness :
  reached_at (snd (run_call flat_distance scalar_norm bot_at_start call_at_first)) 0
  = Some true
  /\ reached_at
       (run_calls flat_distance scalar_norm
          (snd (run_call flat_distance scalar_norm bot_at_start call_at_first))
          [call_north_of_first; call_at_first]) 0
     = Some true.
Proof.
  assert (H : reached_at
                (snd (run_call flat_distance scalar_norm bot_at_start call_at_first)) 0
              = Some true) by (vm_compute; reflexivity).
  split; [exact H|].
  exact (proj2 (reached_monotonic flat_distance scalar_norm sables_d_olonne
                  (snd (run_call flat_distance scalar_norm bot_at_start call_at_first))
                  [call_north_of_first; call_at_first] 0) H).
Defined.

(** C8: the vessel on the last checkpoint of [closing_bot]. *)
Lemma run_course_complete_witness :
  forallb Checkpoint.reached (Bot.course (snd (flat_run closing_bot 1 1 0 5)))
  = true
  /\ Instructions.location (fst (flat_run closing_bot 1 1 0 5)) = None
  /\ Instructions.sail (fst (flat_run closing_bot 1 1 0 5))
     = option_map (Bot.throttle flat_distance scalar_norm 1 1 0 5)
         (last_error (Bot.course closing_bot)).
Proof.
  assert (H : forallb Checkpoint.reached
                (Bot.course (snd (flat_run closing_bot 1 1 0 5))) = true)
    by (vm_compute; reflexivity).
  destruct (run_course_complete flat_distance scalar_norm closing_bot 0 1 1 0 0 5 []
              no_forecast all_sea H) as (Hl & _ & _ & _ & _ & _ & Hs).
  split; [exact H|]. split; [exact Hl | exact Hs].
Defined.

(** * Further properties of [run] and [__init__] *)

Lemma find_none_forallb {A : Type} (p : A -> bool) (l : list A) :
  find (fun a => negb (p a)) l = None <-> forallb p l = true.
Proof.
  induction l as [|x l IH]; cbn [find forallb]; [tauto|].
  destruct (p x); cbn [negb andb]; [exact IH|].
  split; discriminate.
Qed.

Lemma in_order_unreached (course : list Checkpoint.t) :
  forallb (fun c => negb (Checkpoint.reached c)) course = true ->
  in_order course = true.
Proof.
  induction course as [|ch rest IH]; [reflexivity|].
  cbn [forallb in_order]. intros H. apply andb_true_iff in H as [Hc Hr].
  destruct (Checkpoint.reached ch); [discriminate | exact Hr].
Qed.

(** [in_order], index by index. *)
Lemma in_order_spec (course : list Checkpoint.t) :
  in_order course = true <->
  (forall j k cj ck, (j < k)%nat ->
     nth_error course j = Some cj -> nth_error course k = Some ck ->
     Checkpoint.reached ck = true -> Checkpoint.reached cj = true).
Proof.
  induction course as [|ch rest IH].
  - split; [|reflexivity]. intros _ j k cj ck _ H. now destruct j.
  - cbn [in_order]. split.
    + intros H j k cj ck Hjk Hj Hk Hr.
      destruct k as [|k]; [lia|]. cbn [nth_error] in Hk.
      destruct (Checkpoint.reached ch) eqn:E.
      * destruct j as [|j]; cbn [nth_error] in Hj.
        -- injection Hj as <-. exact E.
        -- apply (proj1 IH H j k cj ck); [lia | exact Hj | exact Hk | exact Hr].
      * rewrite forallb_forall in H.
        specialize (H ck (nth_error_In _ _ Hk)). rewrite Hr in H. discriminate.
    + intros H. destruct (Checkpoint.reached ch) eqn:E.
      * apply IH. intros j k cj ck Hjk Hj Hk Hr.
        apply (H (S j) (S k) cj ck); [lia | exact Hj | exact Hk | exact Hr].
      * apply forallb_forall. intros x Hx.
        destruct (In_nth_error _ _ Hx) as [k Hk].
        destruct (Checkpoint.reached x) eqn:Ex; [|reflexivity].
        rewrite (H 0%nat (S k) ch x) in E;
          [discriminate | lia | reflexivity | exact Hk | exact Ex].
Qed.

Lemma in_order_reached_at (self : Bot.t) :
  in_order (Bot.course self) = true <->
  (forall j k, (j < k)%nat -> reached_at self k = Some true ->
               reached_at self j = Some true).
Proof.
  rewrite in_order_spec. unfold reached_at. split.
  - intros Hin j k Hjk Hk.
    destruct (nth_error (Bot.course self) k) as [ck|] eqn:Ek; [|discriminate].
    assert (Hlt : (j < length (Bot.course self))%nat).
    { apply Nat.lt_trans with k; [exact Hjk|]. apply nth_error_Some. congruence. }
    destruct (nth_error (Bot.course self) j) as [cj|] eqn:Ej;
      [|apply nth_error_Some in Hlt; contradiction].
    cbn [option_map] in *. injection Hk as Hk.
    now rewrite (Hin j k cj ck Hjk Ej Ek Hk).
  - intros H j k cj ck Hjk Hj Hk Hr.
    specialize (H j k Hjk). rewrite Hj, Hk in H.
    cbn [option_map] in H. rewrite Hr in H.
    specialize (H eq_refl). now injection H.
Qed.

Lemma set_reached_same (ch : Checkpoint.t) :
  Checkpoint.reached ch = true -> Checkpoint.set_reached ch true = ch.
Proof. destruct ch as [la lo r b]. cbn. now intros ->. Qed.

Section Further.

Variable distance_on_surface : float -> float -> float -> float -> float.
Variable linalg_norm : float -> float.

Local Abbreviation run := (Bot.run distance_on_surface linalg_norm).
Local Abbreviation for_course := (Bot.for_course distance_on_surface linalg_norm).
Local Abbreviation throttle := (Bot.throttle distance_on_surface linalg_norm).
Local Abbreviation within := (Bot.within distance_on_surface).
Local Abbreviation mark := (Bot.mark distance_on_surface).
Local Abbreviation passed := (Bot.passed distance_on_surface).
Local Abbreviation scanned := (Bot.scanned distance_on_surface).

Section Loop.

Variables dt longitude latitude speed : float.

Lemma within_mark ch :
  within longitude latitude (mark longitude latitude ch)
  = within longitude latitude ch.
Proof.
  unfold Bot.mark.
  destruct (within longitude latitude ch) eqn:E; [|exact E].
  exact E.
Qed.

Lemma passed_mark ch :
  passed longitude latitude (mark longitude latitude ch)
  = passed longitude latitude ch.
Proof.
  unfold Bot.passed at 1. rewrite reached_mark, within_mark.
  unfold Bot.passed. now destruct (Checkpoint.reached ch), (within longitude latitude ch).
Qed.

Lemma mark_mark ch :
  mark longitude latitude (mark longitude latitude ch) = mark longitude latitude ch.
Proof.
  unfold Bot.mark at 1. rewrite within_mark.
  destruct (within longitude latitude ch) eqn:E; [|reflexivity].
  apply set_reached_same. rewrite reached_mark. unfold Bot.passed.
  rewrite E. apply orb_true_r.
Qed.

Lemma throttle_mark ch :
  throttle dt longitude latitude speed (mark longitude latitude ch)
  = throttle dt longitude latitude speed ch.
Proof.
  unfold Bot.mark.
  destruct (within longitude latitude ch); reflexivity.
Qed.

Lemma mark_reached ch :
  (within longitude latitude ch = true -> Checkpoint.reached ch = true) ->
  mark longitude latitude ch = ch.
Proof.
  intros H. unfold Bot.mark.
  destruct (within longitude latitude ch); [|reflexivity].
  now apply set_reached_same, H.
Qed.

(** A second pass of the loop over the course that a first pass left makes
    the same assignments and changes no flag. *)
Lemma for_course_again course : forall instructions instructions0,
  for_course dt longitude latitude speed instructions
    (snd (for_course dt longitude latitude speed instructions0 course))
  = (fst (for_course dt longitude latitude speed instructions course),
     snd (for_course dt longitude latitude speed instructions0 course)).
Proof.
  induction course as [|ch rest IH]; intros instructions instructions0;
    [reflexivity|].
  rewrite (for_course_cons _ _ _ _ _ _ instructions0).
  destruct (passed longitude latitude ch) eqn:E; cbn [snd].
  - rewrite !for_course_cons, passed_mark, E, throttle_mark, mark_mark.
    cbn [fst snd]. now rewrite IH.
  - rewrite !for_course_cons, passed_mark, E, throttle_mark, mark_mark,
      target_mark. reflexivity.
Qed.

(** The flags after the loop depend on the position only. *)
Lemma for_course_flags course : forall dt' speed' instructions instructions',
  snd (for_course dt longitude latitude speed instructions course)
  = snd (for_course dt' longitude latitude speed' instructions' course).
Proof.
  induction course as [|ch rest IH]; intros dt' speed' instructions instructions';
    [reflexivity|].
  rewrite !for_course_cons.
  destruct (passed longitude latitude ch); cbn [snd]; [|reflexivity].
  f_equal. apply IH.
Qed.

(** The first checkpoint that the loop leaves unreached is the one it
    stopped at. *)
Lemma find_unreached_after course : forall instructions,
  option_map Bot.target
    (find (fun c => negb (Checkpoint.reached c))
       (snd (for_course dt longitude latitude speed instructions course)))
  = option_map Bot.target
      (find (fun c => negb (passed longitude latitude c)) course).
Proof.
  induction course as [|ch rest IH]; intros instructions; [reflexivity|].
  rewrite for_course_cons. cbn [find].
  destruct (passed longitude latitude ch) eqn:E; cbn [snd find];
    rewrite reached_mark, E; cbn [negb option_map]; [apply IH|].
  now rewrite target_mark.
Qed.

Lemma last_scanned_of_find course ch :
  find (fun c => negb (passed longitude latitude c)) course = Some ch ->
  last_error (scanned longitude latitude course) = Some ch /\ In ch course.
Proof.
  induction course as [|c rest IH]; [discriminate|].
  cbn [find]. rewrite last_error_scanned_cons.
  destruct (passed longitude latitude c); cbn [negb].
  - intros H. destruct (IH H) as [Hl Hin]. rewrite Hl. split; [reflexivity|now right].
  - intros H. injection H as ->. split; [reflexivity|now left].
Qed.

Lemma for_course_unchanged course : forall instructions,
  (forall ch, In ch course -> within longitude latitude ch = true ->
              Checkpoint.reached ch = true) ->
  snd (for_course dt longitude latitude speed instructions course) = course.
Proof.
  induction course as [|c rest IH]; intros instructions H; [reflexivity|].
  rewrite for_course_cons.
  rewrite (mark_reached c (H c (or_introl eq_refl))).
  destruct (passed longitude latitude c); cbn [snd]; [|reflexivity].
  f_equal. apply IH. intros ch Hin. apply H. now right.
Qed.

Lemma for_course_in_order course : forall instructions,
  in_order course = true ->
  in_order (snd (for_course dt longitude latitude speed instructions course))
  = true.
Proof.
  induction course as [|c rest IH]; intros instructions H; [reflexivity|].
  rewrite for_course_cons. cbn [in_order] in H.
  destruct (passed longitude latitude c) eqn:E; cbn [snd in_order];
    rewrite reached_mark, E.
  - apply IH. destruct (Checkpoint.reached c); [exact H|].
    now apply in_order_unreached.
  - unfold Bot.passed in E. apply orb_false_iff in E as [E _].
    now rewrite E in H.
Qed.

(** No sail above 1 is ever assigned. *)
Lemma throttle_not_above_one ch :
  (1 <? throttle dt longitude latitude speed ch) = false.
Proof.
  unfold Bot.throttle.
  destruct (_ <? _ + _); [|reflexivity].
  unfold py_min.
  destruct (1 <? Checkpoint.radius ch / Bot.jump linalg_norm dt speed) eqn:E;
    [reflexivity | exact E].
Qed.

End Loop.

Section AnyCall.

Context {Forecast Terrain : Type}.
Variable self : Bot.t.
Variables t dt longitude latitude heading speed : float.
Variable vector : list float.
Variable forecast : float -> float -> Z -> Forecast.
Variable world_map : float -> float -> Terrain.

(** X1: a call keeps the flags in order: if before the call every checkpoint
    in front of a reached one is reached, the same holds after the call. *)
Theorem run_keeps_order :
  (forall j k, (j < k)%nat -> reached_at self k = Some true ->
               reached_at self j = Some true) ->
  let r := run self t dt longitude latitude heading speed vector
             forecast world_map in
  forall j k, (j < k)%nat -> reached_at (snd r) k = Some true ->
              reached_at (snd r) j = Some true.
Proof.
  intros H r. apply in_order_reached_at. apply in_order_reached_at in H.
  subst r. rewrite run_eq. cbn [snd Bot.course]. now apply for_course_in_order.
Qed.

(** X2: a second call with the same arguments returns the same instructions
    as the first and leaves the bot as the first call left it. *)
Theorem run_idempotent :
  let r := run self t dt longitude latitude heading speed vector
             forecast world_map in
  run (snd r) t dt longitude latitude heading speed vector forecast world_map
  = r.
Proof.
  cbn zeta. rewrite (run_eq _ _ self). rewrite run_eq. cbn [fst snd Bot.course Bot.team].
  now rewrite for_course_again.
Qed.

(** X3: the instructions carry no location exactly when every checkpoint of
    the course is reached after the call. *)
Theorem run_no_target_iff_complete :
  let r := run self t dt longitude latitude heading speed vector
             forecast world_map in
  Instructions.location (fst r) = None <->
  forallb Checkpoint.reached (Bot.course (snd r)) = true.
Proof.
  cbn zeta. rewrite run_eq. cbn [fst snd Bot.course].
  rewrite <- find_none_forallb.
  pose proof (find_unreached_after dt longitude latitude speed
                (Bot.course self) Instructions.new) as H.
  rewrite for_course_location.
  destruct (find _ (snd _)), (find _ (Bot.course self));
    cbn [option_map Instructions.location Instructions.new] in *;
    split; congruence.
Qed.

(** X4: the location that a call returns is the one of the first checkpoint,
    in course order, whose flag is false after the call. *)
Theorem run_target_first_unreached_after :
  let r := run self t dt longitude latitude heading speed vector
             forecast world_map in
  Instructions.location (fst r) =
    option_map Bot.target
      (find (fun c => negb (Checkpoint.reached c)) (Bot.course (snd r))).
Proof.
  cbn zeta. rewrite run_eq. cbn [fst snd Bot.course].
  rewrite find_unreached_after, for_course_location.
  now destruct (find _ (Bot.course self)).
Qed.

(** X5: a call never sets a heading, a vector or a turn to the left or to
    the right, and it sets a sail unless the course is empty. *)
Theorem run_sets_only_location_and_sail :
  let r := run self t dt longitude latitude heading speed vector
             forecast world_map in
  Instructions.heading (fst r) = None /\
  Instructions.vector (fst r) = None /\
  Instructions.left (fst r) = None /\
  Instructions.right (fst r) = None /\
  (Instructions.sail (fst r) = None <-> Bot.course self = []).
Proof.
  cbn zeta. rewrite run_eq. cbn [fst].
  destruct (for_course_other distance_on_surface linalg_norm dt longitude
              latitude speed (Bot.course self) Instructions.new)
    as (Hh & Hv & Hl & Hr).
  cbn zeta in Hh, Hv, Hl, Hr. rewrite Hh, Hv, Hl, Hr.
  repeat (split; [reflexivity|]).
  rewrite for_course_sail.
  destruct (Bot.course self) as [|c rest] eqn:E; [now split|].
  destruct (last_examined_exists distance_on_surface longitude latitude
              (c :: rest)) as (ch & -> & _); [discriminate|].
  split; discriminate.
Qed.

(** X6: whatever the arguments of the call, also for a negative time step or
    a NaN, the sail that a call returns is not above 1. *)
Theorem run_sail_never_above_one (s : float) :
  Instructions.sail
    (fst (run self t dt longitude latitude heading speed vector
            forecast world_map)) = Some s ->
  (1 <? s) = false.
Proof.
  rewrite run_eq. cbn [fst]. rewrite for_course_sail.
  destruct (last_error (scanned longitude latitude (Bot.course self)));
    [|discriminate].
  intros H. injection H as <-. apply throttle_not_above_one.
Qed.

(** X7: when a call returns a location, it is the location of a checkpoint
    of the course that is not reached and not within its radius of the
    position, and the sail returned is the one computed against that
    checkpoint. *)
Theorem run_sail_matches_target (l : Location.t) :
  let r := run self t dt longitude latitude heading speed vector
             forecast world_map in
  Instructions.location (fst r) = Some l ->
  exists ch,
    In ch (Bot.course self) /\
    l = Bot.target ch /\
    Checkpoint.reached ch = false /\
    (distance_on_surface longitude latitude
       (Checkpoint.longitude ch) (Checkpoint.latitude ch)
     <? Checkpoint.radius ch) = false /\
    Instructions.sail (fst r) = Some (throttle dt longitude latitude speed ch).
Proof.
  cbn zeta. rewrite run_eq. cbn [fst].
  rewrite for_course_location, for_course_sail.
  destruct (find (fun c => negb (passed longitude latitude c)) (Bot.course self))
    as [ch|] eqn:E; [|discriminate].
  intros H. injection H as <-.
  destruct (last_scanned_of_find longitude latitude _ _ E) as [Hl Hin].
  apply find_some in E as [_ Hp]. apply negb_true_iff in Hp.
  unfold Bot.passed in Hp. apply orb_false_iff in Hp as [Hr Hw].
  exists ch. rewrite Hl. now repeat split.
Qed.

(** X8: the flags after a call and the location it returns depend on the
    position only: two calls on the same bot at the same position agree on
    both, whatever their times, time steps, headings, speeds and vectors. *)
Theorem run_position_only (t' dt' heading' speed' : float)
  (vector' : list float) :
  let r := run self t dt longitude latitude heading speed vector
             forecast world_map in
  let r' := run self t' dt' longitude latitude heading' speed' vector'
              forecast world_map in
  snd r = snd r' /\
  Instructions.location (fst r) = Instructions.location (fst r').
Proof.
  cbn zeta. rewrite !run_eq. cbn [fst snd].
  rewrite !for_course_location.
  rewrite (for_course_flags dt longitude latitude speed (Bot.course self)
             dt' speed' Instructions.new Instructions.new).
  now split.
Qed.

(** X9: a call at a position that is within the radius of no unreached
    checkpoint leaves the bot as it was. *)
Theorem run_unchanged_out_of_range :
  (forall ch, In ch (Bot.course self) ->
     (distance_on_surface longitude latitude
        (Checkpoint.longitude ch) (Checkpoint.latitude ch)
      <? Checkpoint.radius ch) = true ->
     Checkpoint.reached ch = true) ->
  snd (run self t dt longitude latitude heading speed vector forecast world_map)
  = self.
Proof.
  intros H. rewrite run_eq. cbn [snd].
  rewrite for_course_unchanged; [now destruct self | exact H].
Qed.

End AnyCall.

Section ManyCalls.

Context {Forecast Terrain : Type}.

Lemma run_call_eq (self : Bot.t) (c : Call Forecast Terrain) :
  run_call distance_on_surface linalg_norm self c
  = (fst (for_course (call_dt c) (call_longitude c) (call_latitude c)
            (call_speed c) Instructions.new (Bot.course self)),
     {| Bot.team := Bot.team self;
        Bot.course :=
          snd (for_course (call_dt c) (call_longitude c) (call_latitude c)
                 (call_speed c) Instructions.new (Bot.course self)) |}).
Proof. unfold run_call. apply run_eq. Qed.

Lemma run_calls_geometry (calls : list (Call Forecast Terrain)) : forall self,
  map geometry
    (Bot.course (run_calls distance_on_surface linalg_norm self calls))
  = map geometry (Bot.course self)
  /\ Bot.team (run_calls distance_on_surface linalg_norm self calls)
     = Bot.team self.
Proof.
  induction calls as [|c calls IH]; intros self; [now split|].
  cbn [run_calls]. destruct (IH (snd (run_call distance_on_surface linalg_norm self c)))
    as [Hg Ht].
  rewrite Hg, Ht, run_call_eq. cbn [snd Bot.course Bot.team].
  now rewrite for_course_geometry.
Qed.

Lemma run_calls_in_order (calls : list (Call Forecast Terrain)) : forall self,
  in_order (Bot.course self) = true ->
  in_order (Bot.course (run_calls distance_on_surface linalg_norm self calls))
  = true.
Proof.
  induction calls as [|c calls IH]; intros self H; [exact H|].
  cbn [run_calls]. apply IH. rewrite run_call_eq. cbn [snd Bot.course].
  now apply for_course_in_order.
Qed.

Lemma In_same_geometry (l l' : list Checkpoint.t) (x : Checkpoint.t) :
  map geometry l' = map geometry l -> In x l' ->
  exists y, In y l /\ geometry y = geometry x.
Proof.
  intros H Hx. apply (in_map geometry) in Hx. rewrite H in Hx.
  apply in_map_iff in Hx as (y & Hy & Hin). now exists y.
Qed.

(** X10: through any sequence of calls the course keeps its length and
    the latitude, longitude and radius of every checkpoint, in order, and
    the bot keeps its team. *)
Theorem run_calls_frame (self : Bot.t) (calls : list (Call Forecast Terrain)) :
  let after := run_calls distance_on_surface linalg_norm self calls in
  map geometry (Bot.course after) = map geometry (Bot.course self) /\
  length (Bot.course after) = length (Bot.course self) /\
  Bot.team after = Bot.team self.
Proof.
  cbn zeta. destruct (run_calls_geometry calls self) as [Hg Ht].
  split; [exact Hg|]. split; [|exact Ht].
  rewrite <- (length_map geometry), Hg. apply length_map.
Qed.

(** X11: once every checkpoint is reached, no later call changes the bot,
    and every later call returns instructions without a location. *)
Theorem course_complete_absorbing (self : Bot.t)
  (calls : list (Call Forecast Terrain)) (c : Call Forecast Terrain) :
  forallb Checkpoint.reached (Bot.course self) = true ->
  run_calls distance_on_surface linalg_norm self calls = self /\
  Instructions.location
    (fst (run_call distance_on_surface linalg_norm
            (run_calls distance_on_surface linalg_norm self calls) c)) = None.
Proof.
  intros H.
  assert (Hstep : forall c' : Call Forecast Terrain,
             snd (run_call distance_on_surface linalg_norm self c') = self).
  { intros c'. rewrite run_call_eq. cbn [snd].
    rewrite for_course_unchanged; [now destruct self|].
    intros ch Hin _. rewrite forallb_forall in H. now apply H. }
  assert (Hall : run_calls distance_on_surface linalg_norm self calls = self).
  { induction calls as [|c' calls IH]; [reflexivity|].
    cbn [run_calls]. now rewrite Hstep. }
  split; [exact Hall|]. rewrite Hall, run_call_eq. cbn [fst].
  rewrite for_course_location, find_all_passed; [reflexivity|].
  apply forallb_forall. intros ch Hin. rewrite forallb_forall in H.
  unfold Bot.passed. now rewrite (H ch Hin).
Qed.

(** X12: for the bot that [__init__] builds, after any sequence of calls, a
    call with no distance below zero to a checkpoint of the course and with
    [jump = dt * |speed|] equal to [+0.0] or above zero returns a sail in
    the closed interval from 0 to 1. *)
Theorem init_run_sail_unit (config_start : Location.t)
  (calls : list (Call Forecast Terrain)) (c : Call Forecast Terrain) :
  Forall
    (fun ch =>
       (distance_on_surface (call_longitude c) (call_latitude c)
          (Checkpoint.longitude ch) (Checkpoint.latitude ch) <? 0) = false)
    (Bot.course (Bot.init config_start)) ->
  call_dt c * linalg_norm (call_speed c) = 0 \/
  (0 <? call_dt c * linalg_norm (call_speed c)) = true ->
  exists s,
    Instructions.sail
      (fst (run_call distance_on_surface linalg_norm
              (run_calls distance_on_surface linalg_norm
                 (Bot.init config_start) calls) c)) = Some s /\
    unit_sail s = true.
Proof.
  intros Hd Hj.
  destruct (run_calls_geometry calls (Bot.init config_start)) as [Hg _].
  set (bot := run_calls distance_on_surface linalg_norm
                (Bot.init config_start) calls) in *.
  assert (Hne : Bot.course bot <> []).
  { intros E. rewrite E in Hg. discriminate Hg. }
  rewrite run_call_eq. cbn [fst]. rewrite for_course_sail.
  destruct (last_examined_exists distance_on_surface (call_longitude c)
              (call_latitude c) (Bot.course bot) Hne) as (ch & -> & Hin).
  destruct (In_same_geometry _ _ ch Hg Hin) as (y & Hy & Hgeo).
  assert (Hr : Forall
                 (fun ch =>
                    (0 <=? Checkpoint.radius ch) = true /\
                    (Checkpoint.radius ch <? infinity) = true)
                 (Bot.course (Bot.init config_start)))
    by (cbn [Bot.init Bot.course]; repeat constructor).
  rewrite Forall_forall in Hr, Hd.
  destruct (Hr y Hy) as [Hr0 Hrf]. specialize (Hd y Hy).
  unfold geometry in Hgeo. injection Hgeo as Hla Hlo Hra.
  rewrite Hla, Hlo in Hd. rewrite Hra in Hr0, Hrf.
  eexists. split; [reflexivity|].
  unfold Bot.throttle, Bot.dist, Bot.jump. now apply throttle_unit.
Qed.

(** X13: for the bot that [__init__] builds, after any sequence of calls the
    checkpoints are reached in course order: every checkpoint in front of a
    reached one is reached. *)
Theorem init_reached_in_order (config_start : Location.t)
  (calls : list (Call Forecast Terrain)) (j k : nat) :
  let bot := run_calls distance_on_surface linalg_norm
               (Bot.init config_start) calls in
  (j < k)%nat ->
  reached_at bot k = Some true ->
  reached_at bot j = Some true.
Proof.
  intros bot. revert j k. apply in_order_reached_at.
  apply run_calls_in_order. reflexivity.
Qed.

End ManyCalls.

End Further.

(** ** The further properties on concrete calls *)

(** X1 on [overlapping_bot]: the call marks its second and third
    checkpoint. *)
Lemma run_keeps_order_witness :
  (forall j k, (j < k)%nat -> reached_at overlapping_bot k = Some true ->
               reached_at overlapping_bot j = Some true)
  /\ (1 < 2)%nat
  /\ reached_at (snd (flat_run overlapping_bot 1 1 0 5)) 2 = Some true
  /\ reached_at (snd (flat_run overlapping_bot 1 1 0 5)) 1 = Some true.
Proof.
  assert (H : forall j k, (j < k)%nat ->
                reached_at overlapping_bot k = Some true ->
                reached_at overlapping_bot j = Some true)
    by (apply in_order_reached_at; reflexivity).
  assert (H2 : reached_at (snd (flat_run overlapping_bot 1 1 0 5)) 2 = Some true)
    by (vm_compute; reflexivity).
  split; [exact H|]. split; [lia|]. split; [exact H2|].
  exact (run_keeps_order flat_distance scalar_norm overlapping_bot 0 1 1 0 0 5
           [] no_forecast all_sea H 1%nat 2%nat (Nat.lt_succ_diag_r 1) H2).
Defined.

(** X6 on the call with a time step of -1: the sail is -10. *)
Lemma run_sail_never_above_one_witness :
  Instructions.sail (fst (flat_run bot_at_start (-1) (-67.647903) 20.242470 5))
  = Some (-10)
  /\ (1 <? -10) = false.
Proof.
  assert (H : Instructions.sail
                (fst (flat_run bot_at_start (-1) (-67.647903) 20.242470 5))
              = Some (-10)) by (vm_compute; reflexivity).
  split; [exact H|].
  exact (run_sail_never_above_one flat_distance scalar_norm bot_at_start 0 (-1)
           (-67.647903) 20.242470 0 5 [] no_forecast all_sea (-10) H).
Defined.

(** X7 with the vessel on the first checkpoint: the target is the second
    checkpoint and the sail is the one computed against it. *)
Lemma run_sail_matches_target_witness :
  Instructions.location
    (fst (flat_run bot_at_start 1 (-67.647903) 19.642470 100))
  = Some (Bot.target second_checkpoint)
  /\ exists ch,
       In ch (Bot.course bot_at_start) /\
       Bot.target second_checkpoint = Bot.target ch /\
       Checkpoint.reached ch = false /\
       (flat_distance (-67.647903) 19.642470
          (Checkpoint.longitude ch) (Checkpoint.latitude ch)
        <? Checkpoint.radius ch) = false /\
       Instructions.sail
         (fst (flat_run bot_at_start 1 (-67.647903) 19.642470 100))
       = Some (Bot.throttle flat_distance scalar_norm 1 (-67.647903) 19.642470
                 100 ch).
Proof.
  assert (H : Instructions.location
                (fst (flat_run bot_at_start 1 (-67.647903) 19.642470 100))
              = Some (Bot.target second_checkpoint))
    by (vm_compute; reflexivity).
  split; [exact H|].
  exact (run_sail_matches_target flat_distance scalar_norm bot_at_start 0 1
           (-67.647903) 19.642470 0 100 [] no_forecast all_sea
           (Bot.target second_checkpoint) H).
Defined.

(** X9 far from every checkpoint of the start course. *)
Lemma run_unchanged_out_of_range_witness :
  (forall ch, In ch (Bot.course bot_at_start) ->
     (flat_distance (-60) 30 (Checkpoint.longitude ch) (Checkpoint.latitude ch)
      <? Checkpoint.radius ch) = true ->
     Checkpoint.reached ch = true)
  /\ snd (flat_run bot_at_start 1 (-60) 30 5) = bot_at_start.
Proof.
  assert (H : forall ch, In ch (Bot.course bot_at_start) ->
                (flat_distance (-60) 30
                   (Checkpoint.longitude ch) (Checkpoint.latitude ch)
                 <? Checkpoint.radius ch) = true ->
                Checkpoint.reached ch = true).
  { assert (F : Forall
                  (fun ch =>
                     (flat_distance (-60) 30
                        (Checkpoint.longitude ch) (Checkpoint.latitude ch)
                      <? Checkpoint.radius ch) = false)
                  (Bot.course bot_at_start)) by (repeat constructor).
    rewrite Forall_forall in F. intros ch Hin Hw.
    rewrite (F ch Hin) in Hw. discriminate Hw. }
  split; [exact H|].
  exact (run_unchanged_out_of_range flat_distance scalar_norm bot_at_start 0 1
           (-60) 30 0 5 [] no_forecast all_sea H).
Defined.

(** X11 on [closing_bot] after the call that reached its last checkpoint. *)
Lemma course_complete_absorbing_witness :
  forallb Checkpoint.reached
    (Bot.course (snd (flat_run closing_bot 1 1 0 5))) = true
  /\ run_calls flat_distance scalar_norm (snd (flat_run closing_bot 1 1 0 5))
       [call_at_first; call_at_second]
     = snd (flat_run closing_bot 1 1 0 5)
  /\ Instructions.location
       (fst (run_call flat_distance scalar_norm
               (run_calls flat_distance scalar_norm
                  (snd (flat_run closing_bot 1 1 0 5))
                  [call_at_first; call_at_second])
               call_north_of_first)) = None.
Proof.
  assert (H : forallb Checkpoint.reached
                (Bot.course (snd (flat_run closing_bot 1 1 0 5))) = true)
    by (vm_compute; reflexivity).
  split; [exact H|].
  exact (course_complete_absorbing flat_distance scalar_norm
           (snd (flat_run closing_bot 1 1 0 5))
           [call_at_first; call_at_second] call_north_of_first H).
Defined.

(** X12 from the start, after two calls, 66.6 km north of the first
    checkpoint with a jump of 100 km. *)
Lemma init_run_sail_unit_witness :
  Forall
    (fun ch =>
       (flat_distance (call_longitude call_north_of_first)
          (call_latitude call_north_of_first)
          (Checkpoint.longitude ch) (Checkpoint.latitude ch) <? 0) = false)
    (Bot.course (Bot.init sables_d_olonne))
  /\ (0 <? call_dt call_north_of_first
           * scalar_norm (call_speed call_north_of_first)) = true
  /\ exists s,
       Instructions.sail
         (fst (run_call flat_distance scalar_norm
                 (run_calls flat_distance scalar_norm
                    (Bot.init sables_d_olonne)
                    [call_at_first; call_at_second])
                 call_north_of_first)) = Some s
       /\ unit_sail s = true.
Proof.
  assert (Hd : Forall
                 (fun ch =>
                    (flat_distance (call_longitude call_north_of_first)
                       (call_latitude call_north_of_first)
                       (Checkpoint.longitude ch) (Checkpoint.latitude ch) <? 0)
                    = false)
                 (Bot.course (Bot.init sables_d_olonne)))
    by (repeat constructor).
  assert (Hj : (0 <? call_dt call_north_of_first
                     * scalar_norm (call_speed call_north_of_first)) = true)
    by reflexivity.
  split; [exact Hd|]. split; [exact Hj|].
  exact (init_run_sail_unit flat_distance scalar_norm sables_d_olonne
           [call_at_first; call_at_second] call_north_of_first Hd
           (or_intror Hj)).
Defined.

(** X13 after a call on the first and a call on the second checkpoint. *)
Lemma init_reached_in_order_witness :
  (0 < 1)%nat
  /\ reached_at
       (run_calls flat_distance scalar_norm (Bot.init sables_d_olonne)
          [call_at_first; call_at_second]) 1 = Some true
  /\ reached_at
       (run_calls flat_distance scalar_norm (Bot.init sables_d_olonne)
          [call_at_first; call_at_second]) 0 = Some true.
Proof.
  assert (H : reached_at
                (run_calls flat_distance scalar_norm (Bot.init sables_d_olonne)
                   [call_at_first; call_at_second]) 1 = Some true)
    by (vm_compute; reflexivity).
  split; [lia|]. split; [exact H|].
  exact (init_reached_in_order flat_distance scalar_norm sables_d_olonne
           [call_at_first; call_at_second] 0%nat 1%nat Nat.lt_0_1 H).
Defined.
